(** * yarn [run]: script table, action resolution and suggestions

    A shallow embedding of [src/cli/commands/run.js] and the properties of
    its dispatch core: how the table of runnable names is built, how an
    action is turned into an ordered list of shell invocations, and what
    happens when the action is unknown or absent.

    The embedding starts at line 58. The set [binFolders] of the directories
    to scan (lines 38-56) and the manifest's [scripts] are its inputs; a
    [Set] is iterated in insertion order, so [binFolders] is a list. *)

From Stdlib Require Import String Ascii List.
From stdpp Require Import base option list strings gmap sorting.

Local Open Scope string_scope.

(** ** JavaScript values used by [run.js] *)

(** Truthiness of a string: only the empty string is falsy. *)
Definition truthy (s : string) : bool := negb (String.eqb s "").

(** Truthiness of a possibly [undefined] string, as tested by
    [if (customShell)]. *)
Definition truthy_opt (o : option string) : bool :=
  match o with
  | Some s => truthy s
  | None => false
  end.

(** [v || ''] for [v] a string or [undefined]. *)
Definition or_empty (o : option string) : string :=
  match o with
  | Some s => if truthy s then s else ""
  | None => ""
  end.

(** [Array.prototype.join]. *)
Definition join (sep : string) (l : list string) : string := String.concat sep l.

(** [s.split(c)] for a one-character separator. The result of [split] is
    never empty, so it is returned as its first element and the rest, which
    is how [runCommand] consumes it ([args.shift()], then [args]). *)
Fixpoint split (sep : ascii) (s : string) : string * list string :=
  match s with
  | EmptyString => ("", [])
  | String a s' =>
      let '(x, xs) := split sep s' in
      if Ascii.eqb a sep then ("", x :: xs) else (String a x, xs)
  end.

(** A JavaScript [Map<string, string>]: entries in insertion order; [set]
    on a present key replaces the value where it stands. *)
Module JsMap.
Definition t : Type := list (string * string).

Definition empty : t := [].

Fixpoint set (k v : string) (m : t) : t :=
  match m with
  | [] => [(k, v)]
  | (k', v') :: m' =>
      if String.eqb k k' then (k, v) :: m' else (k', v') :: set k v m'
  end.

Fixpoint get (k : string) (m : t) : option string :=
  match m with
  | [] => None
  | (k', v') :: m' => if String.eqb k k' then Some v' else get k m'
  end.

Definition has (k : string) (m : t) : bool :=
  match get k m with
  | Some _ => true
  | None => false
  end.

Definition keys (m : t) : list string := map fst m.

(** The names visited by [for (const k in m)]. The entries of a [Map] are
    kept in an internal slot and are not properties of the object; a [Map]
    instance has no enumerable property of its own, and the properties of
    [Map.prototype] and [Object.prototype] are not enumerable. The loop
    body therefore runs for no name, whatever the entries are. *)
Definition for_in (m : t) : list string := [].
End JsMap.

(** A JavaScript [Set<string>], in insertion order. *)
Module JsSet.
Definition t : Type := list string.

Definition empty : t := [].

Definition add (x : string) (s : t) : t :=
  if bool_decide (x ∈ s) then s else (s ++ [x])%list.

Definition size (s : t) : nat := length s.
End JsSet.

(** The [scripts] field of the manifest, as [config.readManifest] hands it
    over: an object used as a dictionary from script name to command text.
    [name in pkgScripts] tests its keys and [pkgScripts[name]] reads them. *)
Abbreviation manifest_scripts := (gmap string string) (only parsing).

(** [Object.keys(o).sort()]: the keys in ascending order of their
    characters. *)
Definition sorted_keys (o : manifest_scripts) : list string :=
  merge_sort String.le (map fst (map_to_list o)).

(** [toObject], lines 17-25. *)
Definition toObject (input : JsMap.t) : gmap string string :=
  fold_left (fun output kv => <[kv.1 := kv.2]> output) input ∅.

(** ** Edit distance

    [leven(a, b)] of the [leven] package is the Levenshtein distance. *)
Fixpoint lev (s : list ascii) : list ascii → nat :=
  fix lev_s (t : list ascii) : nat :=
    match s, t with
    | [], _ => length t
    | _, [] => length s
    | a :: s', b :: t' =>
        if Ascii.eqb a b then lev s' t'
        else S (Nat.min (lev s' t) (Nat.min (lev_s t') (lev s' t')))
    end.

Definition leven (a b : string) : nat :=
  lev (list_ascii_of_string a) (list_ascii_of_string b).

(** ** Effects

    What [run] does to the world: it writes [process.env.YARN_WRAP_OUTPUT],
    talks to the reporter and executes commands. *)
Inductive event : Type :=
  | ReporterError (msg : string)
  | ReporterInfo (msg : string)
  | ReporterLog (msg : string) (force : bool)
  | ReporterList (key : string) (items : list string) (hints : gmap string string)
  | ReporterQuestion (question : string)
  | SetYarnWrapOutput (value : string)
  | ExecCommand (stage cmd : string) (shell : option string).

Record world : Type := World {
  YARN_WRAP_OUTPUT : option string;
  trace : list event
}.

Inductive exn : Type :=
  | MessageError (msg : string)
  | InvariantViolation (msg : string)
  | ExecFailure (stage : string).

Inductive outcome (A : Type) : Type :=
  | Returned (a : A)
  | Thrown (e : exn).
Arguments Returned {A} a.
Arguments Thrown {A} e.

(** Code that may throw but touches nothing. *)
Definition bindE {A B} (c : outcome A) (k : A → outcome B) : outcome B :=
  match c with
  | Returned a => k a
  | Thrown e => Thrown e
  end.

(** Code that may throw and acts on the world. *)
Definition M (A : Type) : Type := world → outcome A * world.

Definition lift {A} (c : outcome A) : M A := fun w => (c, w).

Definition ret {A} (a : A) : M A := fun w => (Returned a, w).

Definition bind {A B} (c : M A) (k : A → M B) : M B :=
  fun w =>
    match c w with
    | (Returned a, w') => k a w'
    | (Thrown e, w') => (Thrown e, w')
    end.

Definition throw {A} (e : exn) : M A := fun w => (Thrown e, w).

Definition emit (e : event) : M unit :=
  fun w => (Returned tt, World (YARN_WRAP_OUTPUT w) (trace w ++ [e])%list).

Declare Scope js_scope.
Delimit Scope js_scope with js.
Notation "'let*' x ':=' c 'in' k" := (bind c (fun x => k))
  (at level 10, x name, c at level 100, k at level 200) : js_scope.
Notation "'let?' x ':=' c 'in' k" := (bindE c (fun x => k))
  (at level 10, x name, c at level 100, k at level 200) : js_scope.
Notation "c ;; k" := (bind c (fun _ => k))
  (at level 100, right associativity) : js_scope.
Local Open Scope js_scope.

(** [for (const x of l) { await body(x) }]: the first failure stops the loop. *)
Fixpoint for_of {A} (l : list A) (body : A → M unit) : M unit :=
  match l with
  | [] => ret tt
  | x :: l' => body x ;; for_of l' body
  end.

(** [invariant(value, message)]: throws unless [value] is truthy; afterwards
    [value] is known to be a (non-empty) string. *)
Definition invariant (value : option string) (msg : string) : outcome string :=
  match value with
  | Some s => if truthy s then Returned s else Thrown (InvariantViolation msg)
  | None => Thrown (InvariantViolation msg)
  end.

(** [process.env.YARN_WRAP_OUTPUT = value]. *)
Definition set_YARN_WRAP_OUTPUT (value : string) : M unit :=
  fun w => (Returned tt, World (Some value) (trace w ++ [SetYarnWrapOutput value])%list).

(** ** Collaborators

    Everything [run.js] imports or is handed: the file system, [path],
    [puka], [JSON], the reporter's catalogue and prompt, the
    environment builder, the configured shell and the executor. *)
Record host : Type := Host {
  path_join : string → string → string;
  quoteForShell : string → string;
  fs_exists : string → bool;
  fs_readdir : string → list string;
  JSON_stringify : string → string;
  lang : string → string;
  (** [JSON.stringify(await makeEnv('env', config.cwd, config), null, 2)] *)
  makeEnv_text : string;
  (** [config.getOption('script-shell')] *)
  script_shell : option string;
  (** whether an execution succeeds, given what happened before it *)
  exec_ok : list event → string → string → option string → bool;
  (** [reporter.question]: the answer, or [None] when the prompt is rejected *)
  question_answer : option string
}.

Section Run.
Context (h : host).

(** ** Table construction, lines 58-80 *)

Definition addBinEntry (binFolder : string) (st : JsMap.t * JsSet.t) (name : string)
  : JsMap.t * JsSet.t :=
  (JsMap.set name (quoteForShell h (path_join h binFolder name)) st.1,
   JsSet.add name st.2).

Definition scanFolder (st : JsMap.t * JsSet.t) (binFolder : string)
  : JsMap.t * JsSet.t :=
  if fs_exists h binFolder
  then fold_left (addBinEntry binFolder) (fs_readdir h binFolder) st
  else st.

Definition scanFolders (binFolders : list string) : JsMap.t * JsSet.t :=
  fold_left scanFolder binFolders (JsMap.empty, JsSet.empty).

Definition addPkgScript (o : manifest_scripts) (st : JsMap.t * JsSet.t) (name : string)
  : JsMap.t * JsSet.t :=
  (JsMap.set name (or_empty (o !! name)) st.1, JsSet.add name st.2).

Definition addPkgScripts (pkgScripts : option manifest_scripts) (scripts : JsMap.t)
  : JsMap.t * JsSet.t :=
  match pkgScripts with
  | Some o => fold_left (addPkgScript o) (sorted_keys o) (scripts, JsSet.empty)
  | None => (scripts, JsSet.empty)
  end.

(** The three collections after line 80. *)
Record tables : Type := Tables {
  scripts : JsMap.t;
  binCommands : JsSet.t;
  pkgCommands : JsSet.t
}.

Definition build (binFolders : list string) (pkgScripts : option manifest_scripts)
  : tables :=
  let bins := scanFolders binFolders in
  let pkgs := addPkgScripts pkgScripts bins.1 in
  Tables pkgs.1 bins.2 pkgs.2.

(** ** [runCommand], lines 82-139 *)

(** [name] is a script that the manifest declares: one of
    [Object.keys(pkgScripts)]. *)
Definition in_scripts (name : string) (pkgScripts : option manifest_scripts) : bool :=
  match pkgScripts with
  | Some o => bool_decide (is_Some (o !! name))
  | None => false
  end.

(** The names that a plain object inherits from [Object.prototype]. *)
Definition Object_prototype_names : list string :=
  ["constructor"; "__defineGetter__"; "__defineSetter__"; "hasOwnProperty";
   "__lookupGetter__"; "__lookupSetter__"; "isPrototypeOf";
   "propertyIsEnumerable"; "toString"; "valueOf"; "__proto__"; "toLocaleString"].

(** [pkgScripts && name in pkgScripts], line 88. The operator [in] holds of
    the keys of the object and of the names it inherits. *)
Definition has_property (name : string) (pkgScripts : option manifest_scripts) : bool :=
  match pkgScripts with
  | Some o =>
      bool_decide (is_Some (o !! name))
      || bool_decide (name ∈ Object_prototype_names)
  | None => false
  end.

(** A lifecycle hook, lines 89-92 and 98-101:
    [if (name in pkgScripts) cmds.push([name, pkgScripts[name]])], for
    [name] the action prefixed by [pre] or [post]. No inherited name starts
    with [pre] or [post] ([hook_name_is_not_inherited]), so [in] is a test
    of the keys here. *)
Definition hook (pkgScripts : option manifest_scripts) (name : string)
  : list (string * string) :=
  match pkgScripts with
  | Some o =>
      match o !! name with
      | Some body => [(name, body)]
      | None => []
      end
  | None => []
  end.

(** Lines 86-106: the list [cmds]. *)
Definition build_cmds (pkgScripts : option manifest_scripts) (table : JsMap.t)
    (action : string) : outcome (list (string * string)) :=
  if has_property action pkgScripts then
    let pre := hook pkgScripts ("pre" ++ action) in
    let? script := invariant (JsMap.get action table) "Script must exist" in
    let post := hook pkgScripts ("post" ++ action) in
    Returned (pre ++ [(action, script)] ++ post)%list
  else if JsMap.has action table then
    let? script := invariant (JsMap.get action table) "Script must exist" in
    Returned [(action, script)]
  else Returned [].

(** [sh`${unquoted(cmd)} ${args}`]: the command as it is, then a space and
    the arguments quoted one by one and joined by spaces. The space of the
    template belongs to the word that [args] fills: with no argument the
    word and its space are both left out. *)
Definition sh_unquoted_args (cmd : string) (args : list string) : string :=
  match args with
  | [] => cmd
  | _ :: _ => cmd ++ " " ++ join " " (map (quoteForShell h) args)
  end.

(** Line 113. *)
Definition cmdWithArgs (action : string) (args : list string)
    (step : string * string) : string :=
  if String.eqb step.1 action then sh_unquoted_args step.2 args else step.2.

(** Lines 114-119: the shell handed to [execCommand], if any. *)
Definition customShell : option string :=
  if truthy_opt (script_shell h) then script_shell h else None.

(** [await execCommand(stage, config, cmd, config.cwd, ...)]: the command
    is started, and its failure is thrown. *)
Definition execCommand (stage cmd : string) : M unit :=
  fun w =>
    let w' := World (YARN_WRAP_OUTPUT w)
                    (trace w ++ [ExecCommand stage cmd customShell])%list in
    if exec_ok h (trace w) stage cmd customShell
    then (Returned tt, w')
    else (Thrown (ExecFailure stage), w').

(** Lines 126-131. *)
Definition suggest (names : list string) (action : string) : option string :=
  fold_left
    (fun suggestion commandName =>
       if Nat.ltb (leven commandName action) 2 then Some commandName else suggestion)
    names None.

(** Lines 133-136. *)
Definition not_found_message (action : string) (suggestion : option string) : string :=
  let msg := "Command " ++ JSON_stringify h action ++ " not found." in
  match suggestion with
  | Some candidate =>
      if truthy candidate
      then msg ++ " Did you mean " ++ JSON_stringify h candidate ++ "?"
      else msg
  | None => msg
  end.

Definition runCommand (pkgScripts : option manifest_scripts) (table : JsMap.t)
    (action : string) (args : list string) : M unit :=
  let* cmds := lift (build_cmds pkgScripts table action) in
  if Nat.ltb 0 (length cmds) then
    set_YARN_WRAP_OUTPUT "false" ;;
    for_of cmds (fun step => execCommand step.1 (cmdWithArgs action args step))
  else if String.eqb action "env" then
    emit (ReporterLog (makeEnv_text h) true)
  else
    let suggestion := suggest (JsMap.for_in table) action in
    throw (MessageError (not_found_message action suggestion)).

(** ** [run], lines 58-80 and 141-171 *)

Definition printCommand (table : JsMap.t) (printed : JsMap.t) (pkgCommand : string)
  : M JsMap.t :=
  let* action := lift (invariant (JsMap.get pkgCommand table) "Action must exists") in
  ret (JsMap.set pkgCommand action printed).

Fixpoint printCommands (table : JsMap.t) (names : list string) (printed : JsMap.t)
  : M JsMap.t :=
  match names with
  | [] => ret printed
  | n :: names' =>
      let* printed' := printCommand table printed n in
      printCommands table names' printed'
  end.

Definition run (binFolders : list string) (pkgScripts : option manifest_scripts)
    (args : list string) : M unit :=
  let t := build binFolders pkgScripts in
  match args with
  | [] =>
      emit (ReporterError (lang h "commandNotSpecified")) ;;
      (if Nat.ltb 0 (JsSet.size (binCommands t))
       then emit (ReporterInfo (lang h "binCommands" ++ join ", " (binCommands t)))
       else emit (ReporterError (lang h "noBinAvailable"))) ;;
      let* printedCommands := printCommands (scripts t) (pkgCommands t) JsMap.empty in
      if Nat.ltb 0 (JsSet.size (pkgCommands t)) then
        emit (ReporterInfo (lang h "possibleCommands")) ;;
        emit (ReporterList "possibleCommands" (pkgCommands t) (toObject printedCommands)) ;;
        emit (ReporterQuestion (lang h "commandQuestion")) ;;
        match question_answer h with
        | Some answer =>
            let '(action, rest) := split " " answer in
            runCommand pkgScripts (scripts t) action rest
        | None => emit (ReporterError (lang h "commandNotSpecified"))
        end
      else emit (ReporterError (lang h "noScriptsAvailable"))
  | action :: rest => runCommand pkgScripts (scripts t) action rest
  end.

(** ** Notions used to state the properties *)

(** A directory provides a name when it exists and lists it. *)
Definition provides (binFolder name : string) : Prop :=
  fs_exists h binFolder = true ∧ name ∈ fs_readdir h binFolder.

Definition bin_path (binFolder name : string) : string :=
  quoteForShell h (path_join h binFolder name).

#[global] Instance provides_dec (binFolder name : string)
  : Decision (provides binFolder name).
Proof. unfold provides. apply _. Defined.

(** The execution plan: the steps in the order they are handed to
    [execCommand], each with the command text it is executed with. *)
Definition plan (action : string) (args : list string) (cmds : list (string * string))
  : list (string * string) :=
  map (λ step, (step.1, cmdWithArgs action args step)) cmds.

Definition exec_event (step : string * string) : event :=
  ExecCommand step.1 step.2 customShell.

Definition not_found (pkgScripts : option (gmap string string)) (table : JsMap.t)
    (action : string) : Prop :=
  has_property action pkgScripts = false ∧ JsMap.has action table = false.

End Run.

(** ** A concrete host

    A small file system with two executable directories, POSIX [path.join]
    on a directory and a plain entry name, and quoting of words that need
    none. Used to run the definitions on examples. *)
Definition dq : string := String (ascii_of_nat 34) EmptyString.

Definition demo_dirs : gmap string (list string) :=
  list_to_map [("/a/.bin", ["lint"; "tsc"]); ("/b/.bin", ["lint"; "env"])].

Definition demo_host (answer : option string) : host :=
  {| path_join := fun d n => d ++ "/" ++ n;
     quoteForShell := fun s => s;
     fs_exists := fun d => bool_decide (is_Some (demo_dirs !! d));
     fs_readdir := fun d => default [] (demo_dirs !! d);
     JSON_stringify := fun s => dq ++ s ++ dq;
     lang := fun k => k;
     makeEnv_text := "{}";
     script_shell := None;
     exec_ok := fun _ _ _ _ => true;
     question_answer := answer |}.

Definition w0 : world := World None [].

Definition build_manifest : gmap string string :=
  list_to_map [("build", "compile"); ("prebuild", "clean"); ("postbuild", "notify")].

Definition two_scripts : gmap string string :=
  list_to_map [("build", "compile"); ("test", "jest")].

(** ** The directories to scan, lines 38-56 *)

(** The argument of [pnpApi.getPackageInformation]: the top level is
    addressed by [{name: null, reference: null}]. *)
Inductive locator : Type :=
  | TopLevel
  | Package (name reference : string).

(** What [getPackageInformation] returns, as far as [run] reads it:
    [packageDependencies] is a [Map], read in insertion order. *)
Record package_information : Type := PackageInformation {
  packageDependencies : list (string * string);
  packageLocation : option string
}.

(** What [run] reads of [config], of [registries] and of the PnP file. *)
Record project : Type := Project {
  cwd : string;
  lockfileFolder : string;
  PNP_FILENAME : string;
  (** [config.registries[registry].folder], for [registry] running through
      [Object.keys(registries)] *)
  registry_folders : list string;
  (** [path.join] of three segments *)
  path_join3 : string → string → string → string;
  (** the API that [dynamicRequire] loads from the PnP file *)
  getPackageInformation : locator → package_information
}.

(** Lines 40-42. *)
Definition addRegistryBin (p : project) (binFolders : JsSet.t) (folder : string)
  : JsSet.t :=
  JsSet.add (path_join3 p (cwd p) folder ".bin") binFolders.

(** Lines 50-54. *)
Definition addDependencyBin (p : project) (binFolders : JsSet.t)
    (dependency : string * string) : JsSet.t :=
  let dependencyInformation :=
    getPackageInformation p (Package dependency.1 dependency.2) in
  match packageLocation dependencyInformation with
  | Some location =>
      if truthy location then JsSet.add (location ++ "/.bin") binFolders
      else binFolders
  | None => binFolders
  end.

(** Lines 38-56: the set [binFolders]. *)
Definition collectBinFolders (h : host) (p : project) : JsSet.t :=
  let binFolders := fold_left (addRegistryBin p) (registry_folders p) JsSet.empty in
  if fs_exists h (lockfileFolder p ++ "/" ++ PNP_FILENAME p) then
    let topLevelInformation := getPackageInformation p TopLevel in
    fold_left (addDependencyBin p) (packageDependencies topLevelInformation) binFolders
  else binFolders.

(** [run] from its first line, given the [scripts] of the manifest that
    [config.readManifest] returns. *)
Definition run_from_config (h : host) (p : project)
    (pkgScripts : option manifest_scripts) (args : list string) : M unit :=
  run h (collectBinFolders h p) pkgScripts args.

(** The [.bin] folder of a registry, and that of a direct dependency of the
    top level whose location is known. *)
Definition registry_bin (p : project) (f : string) : Prop :=
  ∃ folder, folder ∈ registry_folders p ∧ f = path_join3 p (cwd p) folder ".bin".

Definition dependency_bin (p : project) (f : string) : Prop :=
  ∃ name reference location,
    (name, reference) ∈ packageDependencies (getPackageInformation p TopLevel) ∧
    packageLocation (getPackageInformation p (Package name reference)) = Some location ∧
    location ≠ "" ∧ f = location ++ "/.bin".

(** A host whose executor fails the stage [build]. *)
Definition failing_build_host : host :=
  {| path_join := path_join (demo_host None);
     quoteForShell := quoteForShell (demo_host None);
     fs_exists := fs_exists (demo_host None);
     fs_readdir := fs_readdir (demo_host None);
     JSON_stringify := JSON_stringify (demo_host None);
     lang := lang (demo_host None);
     makeEnv_text := makeEnv_text (demo_host None);
     script_shell := Some "/bin/zsh";
     exec_ok := fun _ stage _ _ => negb (String.eqb stage "build");
     question_answer := None |}.

(** A host for a project under [/p] that has a PnP file: the registry
    folder and the dependency installed under [/b] both hold [lint]. *)
Definition pnp_dirs : gmap string (list string) :=
  list_to_map [("/p/node_modules/.bin", ["lint"; "tsc"]); ("/b/.bin", ["lint"])].

Definition pnp_host : host :=
  {| path_join := path_join (demo_host None);
     quoteForShell := quoteForShell (demo_host None);
     fs_exists := fun d =>
       String.eqb d "/p/.pnp.js" || bool_decide (is_Some (pnp_dirs !! d));
     fs_readdir := fun d => default [] (pnp_dirs !! d);
     JSON_stringify := JSON_stringify (demo_host None);
     lang := lang (demo_host None);
     makeEnv_text := makeEnv_text (demo_host None);
     script_shell := None;
     exec_ok := fun _ _ _ _ => true;
     question_answer := None |}.

(** A project with one registry folder and two PnP dependencies, one of
    them without a location. *)
Definition demo_project : project :=
  {| cwd := "/p";
     lockfileFolder := "/p";
     PNP_FILENAME := ".pnp.js";
     registry_folders := ["node_modules"];
     path_join3 := fun a b c => a ++ "/" ++ b ++ "/" ++ c;
     getPackageInformation := fun l =>
       match l with
       | TopLevel => PackageInformation [("left", "1.0.0"); ("right", "2.0.0")] None
       | Package name _ =>
           if String.eqb name "left" then PackageInformation [] (Some "/b")
           else PackageInformation [] None
       end |}.

(** ** Facts about the containers *)

Lemma truthy_true_iff (s : string) : truthy s = true ↔ s ≠ "".
Proof.
  unfold truthy. destruct (String.eqb_spec s ""); simpl; split; congruence.
Qed.

Lemma append_empty_r (s : string) : s ++ "" = s.
Proof.
  induction s as [|a s IH]; [done|].
  change (String a (s ++ "") = String a s). by rewrite IH.
Qed.

Lemma or_empty_Some (s : string) : or_empty (Some s) = s.
Proof.
  simpl. destruct (truthy s) eqn:E; [done|].
  unfold truthy in E. destruct (String.eqb_spec s ""); [done | discriminate].
Qed.

Section JsMapFacts.
Implicit Types (k v : string) (m : JsMap.t).

Lemma JsMap_get_set_eq k v m : JsMap.get k (JsMap.set k v m) = Some v.
Proof.
  induction m as [|[k' v'] m IH]; simpl.
  - by rewrite String.eqb_refl.
  - destruct (String.eqb_spec k k') as [->|Hne]; simpl.
    + by rewrite String.eqb_refl.
    + destruct (String.eqb_spec k k'); [done | exact IH].
Qed.

Lemma JsMap_get_set_ne k k' v m :
  k ≠ k' → JsMap.get k' (JsMap.set k v m) = JsMap.get k' m.
Proof.
  intros Hne. induction m as [|[k0 v0] m IH]; simpl.
  - destruct (String.eqb_spec k' k); [congruence | done].
  - destruct (String.eqb_spec k k0) as [->|Hk]; simpl.
    + destruct (String.eqb_spec k' k0); [congruence | done].
    + destruct (String.eqb_spec k' k0); [done | exact IH].
Qed.

Lemma JsMap_get_set k k' v m :
  JsMap.get k' (JsMap.set k v m) = if decide (k = k') then Some v else JsMap.get k' m.
Proof.
  case_decide as Hk.
  - subst. apply JsMap_get_set_eq.
  - by apply JsMap_get_set_ne.
Qed.

(** [set] keeps the position of a key that is present and appends a new one. *)
Lemma JsMap_keys_set k v m :
  JsMap.keys (JsMap.set k v m) =
  if bool_decide (k ∈ JsMap.keys m) then JsMap.keys m else (JsMap.keys m ++ [k])%list.
Proof.
  induction m as [|[k' v'] m IH]; simpl.
  - done.
  - destruct (String.eqb_spec k k') as [->|Hne]; simpl.
    + rewrite bool_decide_eq_true_2; [done | apply list_elem_of_here].
    + rewrite IH. case_bool_decide as H1; case_bool_decide as H2; try done.
      * exfalso. apply H2. by apply list_elem_of_further.
      * exfalso. apply elem_of_cons in H2 as [?|?]; done.
Qed.

Lemma JsMap_keys_set_NoDup k v m :
  NoDup (JsMap.keys m) → NoDup (JsMap.keys (JsMap.set k v m)).
Proof.
  intros Hnd. rewrite JsMap_keys_set. case_bool_decide as Hin; [done|].
  apply NoDup_app. split_and!; [done | | apply NoDup_singleton].
  intros x Hx Hx'. apply list_elem_of_singleton in Hx'. by subst.
Qed.

Lemma JsMap_get_is_Some k m : is_Some (JsMap.get k m) ↔ k ∈ JsMap.keys m.
Proof.
  induction m as [|[k' v'] m IH]; simpl.
  - rewrite elem_of_nil. split; [by intros [? ?] | done].
  - rewrite elem_of_cons. destruct (String.eqb_spec k k') as [->|Hne].
    + split; [by left | by eauto].
    + rewrite IH. split; [by right | by intros [?|?]].
Qed.

Lemma JsMap_has_true k m : JsMap.has k m = true ↔ k ∈ JsMap.keys m.
Proof.
  rewrite <- JsMap_get_is_Some. unfold JsMap.has.
  destruct (JsMap.get k m); split; eauto; done.
Qed.
End JsMapFacts.

Lemma sorted_keys_elem_of (o : gmap string string) (name : string) :
  name ∈ sorted_keys o ↔ is_Some (o !! name).
Proof.
  unfold sorted_keys. rewrite merge_sort_Permutation.
  rewrite list_elem_of_fmap. split.
  - intros [[k v] [-> Hkv]]. apply elem_of_map_to_list in Hkv. by eauto.
  - intros [v Hv]. exists (name, v). split; [done|]. by apply elem_of_map_to_list.
Qed.

(** ** Facts about table construction *)

(** One more [set] in a loop over names: the name set last reads its new
    value, the others read what the induction hypothesis [IH] gives. *)
Ltac fold_set_step IH :=
  rewrite IH; simpl; rewrite JsMap_get_set;
  repeat case_bool_decide; repeat case_decide; subst; try done;
  match goal with
  | H : _ ∉ _ :: _ |- _ => exfalso; apply H; by (left || right)
  | H : _ ∈ _ :: _ |- _ => by apply elem_of_cons in H as [?|?]
  end.

Section TableFacts.
Context (h : host).
Implicit Types (st : JsMap.t * JsSet.t) (o : gmap string string).

Lemma fold_addBinEntry_keys_NoDup binFolder names st :
  NoDup (JsMap.keys st.1) →
  NoDup (JsMap.keys (fold_left (addBinEntry h binFolder) names st).1).
Proof.
  revert st. induction names as [|n names IH]; intros st Hnd; simpl; [done|].
  apply IH. simpl. by apply JsMap_keys_set_NoDup.
Qed.

Lemma scanFolder_keys_NoDup st binFolder :
  NoDup (JsMap.keys st.1) → NoDup (JsMap.keys (scanFolder h st binFolder).1).
Proof.
  intros Hnd. unfold scanFolder. destruct (fs_exists h binFolder); [|done].
  by apply fold_addBinEntry_keys_NoDup.
Qed.

Lemma scanFolders_keys_NoDup binFolders :
  NoDup (JsMap.keys (scanFolders h binFolders).1).
Proof.
  unfold scanFolders.
  assert (Hgen : ∀ st, NoDup (JsMap.keys st.1) →
             NoDup (JsMap.keys (fold_left (scanFolder h) binFolders st).1)).
  { induction binFolders as [|f fs IH]; intros st Hnd; simpl; [done|].
    apply IH. by apply scanFolder_keys_NoDup. }
  apply Hgen. simpl. apply NoDup_nil_2.
Qed.

Lemma fold_addPkgScript_keys_NoDup o names st :
  NoDup (JsMap.keys st.1) →
  NoDup (JsMap.keys (fold_left (addPkgScript o) names st).1).
Proof.
  revert st. induction names as [|n names IH]; intros st Hnd; simpl; [done|].
  apply IH. simpl. by apply JsMap_keys_set_NoDup.
Qed.

(** After the manifest loop a name of the loop reads the manifest's text,
    any other name reads what the table held before. *)
Lemma fold_addPkgScript_get o names st name :
  JsMap.get name (fold_left (addPkgScript o) names st).1 =
  if bool_decide (name ∈ names) then Some (or_empty (o !! name))
  else JsMap.get name st.1.
Proof.
  revert st. induction names as [|n names IH]; intros st; simpl; [done|].
  fold_set_step IH.
Qed.

Lemma addPkgScripts_get pkgScripts table name :
  JsMap.get name (addPkgScripts pkgScripts table).1 =
  match pkgScripts with
  | Some o =>
      match o !! name with
      | Some body => Some body
      | None => JsMap.get name table
      end
  | None => JsMap.get name table
  end.
Proof.
  destruct pkgScripts as [o|]; simpl; [|done].
  rewrite fold_addPkgScript_get. simpl.
  case_bool_decide as Hin; rewrite sorted_keys_elem_of in Hin.
  - destruct Hin as [body Hb]. rewrite Hb. by rewrite or_empty_Some.
  - destruct (o !! name) eqn:E; [|done]. exfalso. apply Hin. by eauto.
Qed.

(** Within one directory: a listed name reads its quoted path afterwards. *)
Lemma fold_addBinEntry_get binFolder names st name :
  JsMap.get name (fold_left (addBinEntry h binFolder) names st).1 =
  if bool_decide (name ∈ names) then Some (bin_path h binFolder name)
  else JsMap.get name st.1.
Proof.
  revert st. induction names as [|n names IH]; intros st; simpl; [done|].
  fold_set_step IH.
Qed.

Lemma scanFolder_get_provided st binFolder name :
  provides h binFolder name →
  JsMap.get name (scanFolder h st binFolder).1 = Some (bin_path h binFolder name).
Proof.
  intros [He Hn]. unfold scanFolder. rewrite He, fold_addBinEntry_get.
  by rewrite bool_decide_eq_true_2.
Qed.

Lemma scanFolder_get_other st binFolder name :
  ¬ provides h binFolder name →
  JsMap.get name (scanFolder h st binFolder).1 = JsMap.get name st.1.
Proof.
  intros Hn. unfold scanFolder. destruct (fs_exists h binFolder) eqn:He; [|done].
  rewrite fold_addBinEntry_get. rewrite bool_decide_eq_false_2; [done|].
  intros Hin. by apply Hn.
Qed.

Lemma fold_scanFolder_snoc binFolders f st :
  fold_left (scanFolder h) (binFolders ++ [f]) st =
  scanFolder h (fold_left (scanFolder h) binFolders st) f.
Proof. by rewrite fold_left_app. Qed.

(** No directory provides the name: the table has no entry for it. *)
Lemma scanFolders_get_None binFolders name :
  (∀ f, f ∈ binFolders → ¬ provides h f name) →
  JsMap.get name (scanFolders h binFolders).1 = None.
Proof.
  unfold scanFolders.
  induction binFolders as [|f fs IH] using rev_ind; intros Hno; [done|].
  rewrite fold_scanFolder_snoc, scanFolder_get_other.
  - apply IH. intros g Hg. apply Hno, elem_of_app. by left.
  - apply Hno, elem_of_app. right. by apply list_elem_of_singleton.
Qed.

(** All providers of the name agree on [v]: the entry is [v]. *)
Lemma scanFolders_get_agree binFolders name v :
  (∃ f, f ∈ binFolders ∧ provides h f name) →
  (∀ f, f ∈ binFolders → provides h f name → bin_path h f name = v) →
  JsMap.get name (scanFolders h binFolders).1 = Some v.
Proof.
  unfold scanFolders.
  induction binFolders as [|f fs IH] using rev_ind; intros [g [Hg Hp]] Hall.
  - by apply elem_of_nil in Hg.
  - rewrite fold_scanFolder_snoc.
    destruct (decide (provides h f name)) as [Hf|Hf].
    + rewrite scanFolder_get_provided by done. f_equal. apply Hall; [|done].
      apply elem_of_app. right. by apply list_elem_of_singleton.
    + rewrite scanFolder_get_other by done. apply IH.
      * apply elem_of_app in Hg as [Hg|Hg]; [by eauto|].
        apply list_elem_of_singleton in Hg. by subst.
      * intros f' Hf' Hp'. apply Hall; [|done]. apply elem_of_app. by left.
Qed.

(** The last directory in iteration order that provides h a name decides. *)
Lemma scanFolders_get_last binFolders f name :
  provides h f name →
  JsMap.get name (scanFolders h (binFolders ++ [f])).1 = Some (bin_path h f name).
Proof.
  intros Hp. unfold scanFolders.
  by rewrite fold_scanFolder_snoc, scanFolder_get_provided.
Qed.

Lemma scanFolders_get_is_Some binFolders name :
  is_Some (JsMap.get name (scanFolders h binFolders).1) ↔
  ∃ f, f ∈ binFolders ∧ provides h f name.
Proof.
  destruct (decide (Exists (λ f, provides h f name) binFolders)) as [Hex|Hex].
  - apply Exists_exists in Hex. split; [done|]. intros _.
    induction binFolders as [|f fs IH] using rev_ind.
    + destruct Hex as [? [[]%elem_of_nil _]].
    + unfold scanFolders. rewrite fold_scanFolder_snoc.
      destruct (decide (provides h f name)) as [Hf|Hf].
      * rewrite scanFolder_get_provided by done. by eauto.
      * rewrite scanFolder_get_other by done. apply IH.
        destruct Hex as [g [Hg Hp]]. exists g. split; [|done].
        apply elem_of_app in Hg as [Hg|Hg]; [done|].
        apply list_elem_of_singleton in Hg. by subst.
  - rewrite Exists_exists in Hex. rewrite scanFolders_get_None.
    + split; [by intros [? ?] | done].
    + intros f Hf Hp. apply Hex. by eauto.
Qed.
End TableFacts.

(** The entry of a name in the finished table. *)
Lemma build_get (h : host) (binFolders : list string)
    (pkgScripts : option (gmap string string)) (name : string) :
  JsMap.get name (scripts (build h binFolders pkgScripts)) =
  match pkgScripts with
  | Some o =>
      match o !! name with
      | Some body => Some body
      | None => JsMap.get name (scanFolders h binFolders).1
      end
  | None => JsMap.get name (scanFolders h binFolders).1
  end.
Proof. unfold build. simpl. apply addPkgScripts_get. Qed.

Lemma build_keys_NoDup (h : host) (binFolders : list string)
    (pkgScripts : option (gmap string string)) :
  NoDup (JsMap.keys (scripts (build h binFolders pkgScripts))).
Proof.
  unfold build. simpl. destruct pkgScripts as [o|]; simpl.
  - apply fold_addPkgScript_keys_NoDup. simpl. apply scanFolders_keys_NoDup.
  - apply scanFolders_keys_NoDup.
Qed.

(** ** The script table *)

(** C2. The table built by [run] never holds a key twice, and a name that is
    both listed by an existing executable directory and a key of the
    manifest's scripts reads the manifest's command text: the manifest entry
    has overwritten the executable's. *)
Theorem table_keys_unique_manifest_wins (h : host) (binFolders : list string)
    (pkgScripts : option (gmap string string)) :
  NoDup (JsMap.keys (scripts (build h binFolders pkgScripts))) ∧
  ∀ (o : gmap string string) (binFolder name body : string),
    pkgScripts = Some o →
    binFolder ∈ binFolders →
    provides h binFolder name →
    o !! name = Some body →
    JsMap.get name (scripts (build h binFolders pkgScripts)) = Some body.
Proof.
  split; [apply build_keys_NoDup|].
  intros o binFolder name body -> _ _ Hbody.
  by rewrite build_get, Hbody.
Qed.

Lemma table_keys_unique_manifest_wins_witness :
  "/a/.bin" ∈ ["/a/.bin"; "/b/.bin"] ∧
  provides (demo_host None) "/a/.bin" "lint" ∧
  ({[ "lint" := "eslint ." ]} : gmap string string) !! "lint" = Some "eslint ." ∧
  NoDup (JsMap.keys (scripts (build (demo_host None) ["/a/.bin"; "/b/.bin"]
                                (Some {[ "lint" := "eslint ." ]})))) ∧
  JsMap.get "lint" (scripts (build (demo_host None) ["/a/.bin"; "/b/.bin"]
                               (Some {[ "lint" := "eslint ." ]}))) = Some "eslint .".
Proof.
  assert (Hin : "/a/.bin" ∈ ["/a/.bin"; "/b/.bin"]) by (by left).
  assert (Hp : provides (demo_host None) "/a/.bin" "lint").
  { split; [reflexivity|]. vm_compute. by left. }
  assert (Hl : ({[ "lint" := "eslint ." ]} : gmap string string) !! "lint"
               = Some "eslint .") by reflexivity.
  destruct (table_keys_unique_manifest_wins (demo_host None) ["/a/.bin"; "/b/.bin"]
              (Some {[ "lint" := "eslint ." ]})) as [Hnd Hwin].
  split_and!; [exact Hin | exact Hp | exact Hl | exact Hnd |].
  exact (Hwin _ _ _ _ eq_refl Hin Hp Hl).
Defined.

(** C3, as the claim states it, fails: two directories that both list
    [lint], iterated in the two possible orders, leave different entries for
    [lint] in the table. *)
Lemma table_order_dependent :
  ["/a/.bin"; "/b/.bin"] ≡ₚ ["/b/.bin"; "/a/.bin"] ∧
  JsMap.get "lint" (scripts (build (demo_host None) ["/a/.bin"; "/b/.bin"] None))
    = Some "/b/.bin/lint" ∧
  JsMap.get "lint" (scripts (build (demo_host None) ["/b/.bin"; "/a/.bin"] None))
    = Some "/a/.bin/lint" ∧
  scripts (build (demo_host None) ["/a/.bin"; "/b/.bin"] None)
    ≠ scripts (build (demo_host None) ["/b/.bin"; "/a/.bin"] None).
Proof.
  split_and!; [apply Permutation_swap | reflexivity | reflexivity |].
  vm_compute. discriminate.
Qed.

(** C3, amended. Permuting the iteration order of the executable directories
    never changes the set of keys of the table, never changes the entry of a
    manifest script key, and never changes the entry of a name that at most
    one of the directories provides. *)
Theorem table_permutation_stable (h : host) (l1 l2 : list string)
    (pkgScripts : option (gmap string string)) :
  l1 ≡ₚ l2 →
  (∀ name, name ∈ JsMap.keys (scripts (build h l1 pkgScripts)) ↔
           name ∈ JsMap.keys (scripts (build h l2 pkgScripts))) ∧
  (∀ name, in_scripts name pkgScripts = true →
     JsMap.get name (scripts (build h l1 pkgScripts)) =
     JsMap.get name (scripts (build h l2 pkgScripts))) ∧
  (∀ name,
     (∀ f g, f ∈ l1 → g ∈ l1 → provides h f name → provides h g name → f = g) →
     JsMap.get name (scripts (build h l1 pkgScripts)) =
     JsMap.get name (scripts (build h l2 pkgScripts))).
Proof.
  intros Hperm.
  assert (Hprov : ∀ name, (∃ f, f ∈ l1 ∧ provides h f name) ↔
                          (∃ f, f ∈ l2 ∧ provides h f name)).
  { intros name. split; intros [f [Hf Hp]]; exists f; split; try done.
    - by rewrite <- Hperm.
    - by rewrite Hperm. }
  split_and!.
  - intros name. rewrite <- !JsMap_get_is_Some, !build_get.
    destruct pkgScripts as [o|]; [destruct (o !! name); [done|]|];
      by rewrite !scanFolders_get_is_Some.
  - intros name Hin. rewrite !build_get.
    destruct pkgScripts as [o|]; [|done]. simpl in Hin.
    apply bool_decide_eq_true in Hin as [body Hb]. by rewrite Hb.
  - intros name Huniq. rewrite !build_get.
    assert (Hbins : JsMap.get name (scanFolders h l1).1 =
                    JsMap.get name (scanFolders h l2).1).
    { destruct (decide (Exists (λ f, provides h f name) l1)) as [Hex|Hex].
      - apply Exists_exists in Hex. destruct Hex as [f [Hf Hp]].
        rewrite (scanFolders_get_agree h l1 name (bin_path h f name)).
        + symmetry. apply scanFolders_get_agree.
          * apply Hprov. by eauto.
          * intros g Hg Hpg. f_equal. apply Huniq; try done. by rewrite Hperm.
        + by eauto.
        + intros g Hg Hpg. f_equal. by apply Huniq.
      - rewrite Exists_exists in Hex.
        rewrite !scanFolders_get_None; [done| |].
        + intros f Hf Hp. apply Hex. exists f. split; [by rewrite Hperm | done].
        + intros f Hf Hp. apply Hex. by eauto. }
    destruct pkgScripts as [o|]; [destruct (o !! name); [done|]|]; exact Hbins.
Qed.

Lemma table_permutation_stable_witness :
  ["/a/.bin"; "/b/.bin"] ≡ₚ ["/b/.bin"; "/a/.bin"] ∧
  JsMap.get "tsc" (scripts (build (demo_host None) ["/a/.bin"; "/b/.bin"] None)) =
  JsMap.get "tsc" (scripts (build (demo_host None) ["/b/.bin"; "/a/.bin"] None)).
Proof.
  assert (Hperm : ["/a/.bin"; "/b/.bin"] ≡ₚ ["/b/.bin"; "/a/.bin"])
    by apply Permutation_swap.
  split; [exact Hperm|].
  destruct (table_permutation_stable (demo_host None) _ _ None Hperm) as (_ & _ & Hone).
  apply Hone. intros f g Hf Hg [_ Hpf] [_ Hpg].
  apply elem_of_cons in Hf as [->|Hf]; [|apply list_elem_of_singleton in Hf as ->];
    apply elem_of_cons in Hg as [->|Hg]; try (apply list_elem_of_singleton in Hg as ->);
    try done; exfalso; vm_compute in Hpf, Hpg.
  - apply elem_of_cons in Hpg as [?|Hpg]; [done|].
    apply list_elem_of_singleton in Hpg. done.
  - apply elem_of_cons in Hpf as [?|Hpf]; [done|].
    apply list_elem_of_singleton in Hpf. done.
Defined.

(** ** Facts about [runCommand] *)

Section RunFacts.
Context (h : host).
Implicit Types (pkgScripts : option (gmap string string)) (table : JsMap.t).
Implicit Types (cmds : list (string * string)) (w : world).

Lemma world_eta w : World (YARN_WRAP_OUTPUT w) (trace w ++ []) = w.
Proof. destruct w. simpl. by rewrite app_nil_r. Qed.

(** The loop of lines 111-120 starts the steps of the plan in order and
    stops at the first failure; it does not touch the flag. *)
Lemma exec_loop (action : string) (args : list string) cmds w :
  ∃ r n,
    for_of cmds (λ step, execCommand h step.1 (cmdWithArgs h action args step)) w =
      (r, World (YARN_WRAP_OUTPUT w)
                (trace w ++ map (exec_event h) (take n (plan h action args cmds)))) ∧
    (n ≤ length cmds)%nat ∧
    ((r = Returned tt ∧ n = length cmds) ∨ (∃ stage, r = Thrown (ExecFailure stage))).
Proof.
  revert w. induction cmds as [|step cmds IH]; intros w.
  - exists (Returned tt), 0. simpl. rewrite world_eta. unfold ret. eauto.
  - cbn [for_of]. unfold bind, execCommand at 1.
    destruct (exec_ok h (trace w) step.1 (cmdWithArgs h action args step)
                (customShell h)) eqn:Hok.
    + set (w1 := World _ _).
      destruct (IH w1) as (r & n & Heq & Hle & Hr).
      exists r, (S n). rewrite Heq. subst w1. simpl.
      rewrite <- app_assoc. simpl. split_and!; [done | lia |].
      destruct Hr as [[-> ->]|Hr]; [by left | by right].
    + exists (Thrown (ExecFailure step.1)), 1. simpl. rewrite ?take_0. simpl.
      split_and!; [done | lia | by eauto].
Qed.

Lemma build_cmds_nil pkgScripts table action :
  build_cmds pkgScripts table action = Returned [] ↔ not_found pkgScripts table action.
Proof.
  unfold build_cmds, not_found.
  destruct (has_property action pkgScripts).
  - split; [|by intros [? ?]].
    destruct (invariant _ _); simpl; [|done].
    intros [=Hnil]. by apply app_nil in Hnil as [_ ?].
  - destruct (JsMap.has action table); [|done].
    split; [|by intros [? ?]]. by destruct (invariant _ _).
Qed.

Lemma build_cmds_Thrown pkgScripts table action e :
  build_cmds pkgScripts table action = Thrown e →
  e = InvariantViolation "Script must exist".
Proof.
  unfold build_cmds, invariant.
  destruct (has_property action pkgScripts); [|destruct (JsMap.has action table)];
    repeat (case_match; simpl); congruence.
Qed.

(** [runCommand] by cases on the list [cmds]. *)
Lemma runCommand_cases pkgScripts table action args w :
  runCommand h pkgScripts table action args w =
  match build_cmds pkgScripts table action with
  | Thrown e => (Thrown e, w)
  | Returned [] =>
      if String.eqb action "env"
      then (Returned tt,
            World (YARN_WRAP_OUTPUT w)
                  (trace w ++ [ReporterLog (makeEnv_text h) true]))
      else (Thrown (MessageError
              (not_found_message h action (suggest (JsMap.for_in table) action))), w)
  | Returned cmds =>
      for_of cmds (λ step, execCommand h step.1 (cmdWithArgs h action args step))
        (World (Some "false") (trace w ++ [SetYarnWrapOutput "false"]))
  end.
Proof.
  unfold runCommand, bind, lift.
  destruct (build_cmds pkgScripts table action) as [[|step cmds]|e]; try done.
  simpl. by destruct (String.eqb action "env").
Qed.

(** What a run with a non-empty list [cmds] leaves behind. *)
Lemma runCommand_plan pkgScripts table action args w step cmds :
  build_cmds pkgScripts table action = Returned (step :: cmds) →
  ∃ r n,
    runCommand h pkgScripts table action args w =
      (r, World (Some "false")
            (trace w ++ SetYarnWrapOutput "false" ::
               map (exec_event h) (take n (plan h action args (step :: cmds))))) ∧
    ((r = Returned tt ∧ n = S (length cmds)) ∨ (∃ stage, r = Thrown (ExecFailure stage))).
Proof.
  intros Hcmds. rewrite runCommand_cases, Hcmds.
  destruct (exec_loop action args (step :: cmds)
              (World (Some "false") (trace w ++ [SetYarnWrapOutput "false"])))
    as (r & n & Heq & _ & Hr).
  exists r, n. rewrite Heq. cbn [YARN_WRAP_OUTPUT trace].
  rewrite <- app_assoc. done.
Qed.

Lemma runCommand_not_found pkgScripts table action args w :
  not_found pkgScripts table action →
  action ≠ "env" →
  runCommand h pkgScripts table action args w =
    (Thrown (MessageError
       (not_found_message h action (suggest (JsMap.for_in table) action))), w).
Proof.
  intros Hnf Henv. rewrite runCommand_cases.
  apply build_cmds_nil in Hnf. rewrite Hnf.
  by destruct (String.eqb_spec action "env").
Qed.

Lemma runCommand_MessageError pkgScripts table action args w msg w' :
  runCommand h pkgScripts table action args w = (Thrown (MessageError msg), w') →
  not_found pkgScripts table action ∧ action ≠ "env" ∧ w' = w ∧
  msg = not_found_message h action (suggest (JsMap.for_in table) action).
Proof.
  rewrite runCommand_cases.
  destruct (build_cmds pkgScripts table action) as [[|step cmds]|e] eqn:Hcmds.
  - apply build_cmds_nil in Hcmds.
    destruct (String.eqb_spec action "env"); [done|].
    intros [= <- <-]. done.
  - intros Hrun.
    destruct (exec_loop action args (step :: cmds)
                (World (Some "false") (trace w ++ [SetYarnWrapOutput "false"])))
      as (r & n & Heq & _ & Hr).
    rewrite Heq in Hrun. destruct Hr as [[-> _]|[stage ->]]; done.
  - apply build_cmds_Thrown in Hcmds as ->. done.
Qed.
End RunFacts.

(** ** Resolution and its failure *)

(** [in] and the manifest's keys. *)
Lemma has_property_own (o : gmap string string) (name : string) :
  is_Some (o !! name) → has_property name (Some o) = true.
Proof. intros Hs. unfold has_property. by rewrite bool_decide_eq_true_2. Qed.

Lemma has_property_not_inherited (pkgScripts : option (gmap string string))
    (name : string) :
  name ∉ Object_prototype_names →
  has_property name pkgScripts = in_scripts name pkgScripts.
Proof.
  intros Hn. unfold has_property, in_scripts. destruct pkgScripts as [o|]; [|done].
  rewrite (bool_decide_eq_false_2 (name ∈ Object_prototype_names)) by done.
  by rewrite orb_false_r.
Qed.

Lemma has_property_false (pkgScripts : option (gmap string string)) (name : string) :
  has_property name pkgScripts = false → in_scripts name pkgScripts = false.
Proof.
  unfold has_property, in_scripts. destruct pkgScripts as [o|]; [|done].
  by intros [? _]%orb_false_iff.
Qed.

(** No name that starts with [pre] or [post] is inherited. *)
Lemma hook_name_is_not_inherited (action : string) :
  ¬ (("pre" ++ action) ∈ Object_prototype_names) ∧
  ¬ (("post" ++ action) ∈ Object_prototype_names).
Proof.
  split; intros Hin; unfold Object_prototype_names in Hin;
    repeat (apply elem_of_cons in Hin as [Heq|Hin]; [by inversion Heq|]);
    by apply elem_of_nil in Hin.
Qed.

(** When [runCommand] throws the "not found" error, and with what message:
    exactly when the action is no property of the manifest's scripts, no
    key of the table and not [env]. *)
Lemma not_found_error_iff (h : host) (pkgScripts : option (gmap string string))
    (table : JsMap.t) (action : string) (args : list string) (w : world) :
  ((∃ msg w', runCommand h pkgScripts table action args w
              = (Thrown (MessageError msg), w')) ↔
   (has_property action pkgScripts = false ∧ JsMap.has action table = false
    ∧ action ≠ "env")) ∧
  (∀ msg w',
     runCommand h pkgScripts table action args w = (Thrown (MessageError msg), w') →
     msg = ("Command " ++ JSON_stringify h action ++ " not found.") ++
           match suggest (JsMap.for_in table) action with
           | Some candidate => " Did you mean " ++ JSON_stringify h candidate ++ "?"
           | None => ""
           end).
Proof.
  split.
  - split.
    + intros (msg & w' & Hrun).
      apply runCommand_MessageError in Hrun as ([? ?] & ? & _). done.
    + intros (Hm & Ht & Henv). eexists _, _.
      by apply runCommand_not_found.
  - intros msg w' Hrun.
    apply runCommand_MessageError in Hrun as (_ & _ & _ & ->).
    unfold not_found_message. simpl. by rewrite append_empty_r.
Qed.



(** [printCommands] touches nothing and can only fail an [invariant]. *)
Lemma printCommands_pure (table : JsMap.t) (names : list string) (printed : JsMap.t)
    (w : world) :
  ∃ r, printCommands table names printed w = (r, w) ∧
       ∀ msg, r ≠ Thrown (MessageError msg).
Proof.
  revert printed. induction names as [|n names IH]; intros printed.
  - by eexists.
  - cbn [printCommands]. unfold bind, printCommand, lift, invariant at 1.
    destruct (JsMap.get n table) as [s|]; [destruct (truthy s)|]; simpl;
      [apply IH | by eexists | by eexists].
Qed.

(** C9. When [runCommand] throws the "not found" error the world is as it
    was: no command has been started and the flag has not been written. The
    same holds of [run], which may only have talked to the reporter before. *)
Theorem not_found_is_atomic (h : host) (pkgScripts : option (gmap string string)) :
  (∀ table action args w msg w',
     runCommand h pkgScripts table action args w = (Thrown (MessageError msg), w') →
     w' = w) ∧
  (∀ binFolders args w msg w',
     run h binFolders pkgScripts args w = (Thrown (MessageError msg), w') →
     YARN_WRAP_OUTPUT w' = YARN_WRAP_OUTPUT w ∧
     ∃ evs, trace w' = (trace w ++ evs)%list ∧
            ∀ stage cmd shell, ExecCommand stage cmd shell ∉ evs).
Proof.
  split.
  - intros table action args w msg w' Hrun.
    by apply runCommand_MessageError in Hrun as (_ & _ & ? & _).
  - intros binFolders [|action rest] w msg w' Hrun.
    + unfold run, bind, emit in Hrun.
      destruct (Nat.ltb 0 (JsSet.size (binCommands _))) eqn:Hbins;
        cbn [YARN_WRAP_OUTPUT trace] in Hrun;
        match type of Hrun with
        | context [printCommands ?t ?n ?p ?w1] =>
            destruct (printCommands_pure t n p w1) as (r & Hpure & Hr);
            rewrite !Hpure in Hrun
        end;
        (destruct r as [printed|e];
         [| injection Hrun as He _; subst e; by destruct (Hr msg)]);
        (destruct (Nat.ltb 0 (JsSet.size (pkgCommands _))) eqn:Hpkgs;
         cbn [YARN_WRAP_OUTPUT trace] in Hrun; [|done]);
        (destruct (question_answer h) as [answer|]; [|done]);
        destruct (split " " answer) as [action rest];
        apply runCommand_MessageError in Hrun as (_ & _ & -> & _);
        cbn [YARN_WRAP_OUTPUT trace];
        (split; [done|]); rewrite <- !app_assoc;
        (eexists; split; [reflexivity|]);
        intros stage cmd shell Hin;
        repeat (apply elem_of_cons in Hin as [?|Hin]; [done|]);
        by apply elem_of_nil in Hin.
    + unfold run in Hrun.
      apply runCommand_MessageError in Hrun as (_ & _ & -> & _).
      split; [done|]. exists []. rewrite app_nil_r. split; [done|].
      intros stage cmd shell Hin. by apply elem_of_nil in Hin.
Qed.

Lemma not_found_is_atomic_witness :
  runCommand (demo_host None) (Some build_manifest)
    (scripts (build (demo_host None) ["/a/.bin"] (Some build_manifest))) "xyz" ["-v"] w0
  = (Thrown (MessageError ("Command " ++ dq ++ "xyz" ++ dq ++ " not found.")), w0) ∧
  w0 = w0.
Proof.
  assert (Hrun : runCommand (demo_host None) (Some build_manifest)
            (scripts (build (demo_host None) ["/a/.bin"] (Some build_manifest)))
            "xyz" ["-v"] w0
          = (Thrown (MessageError ("Command " ++ dq ++ "xyz" ++ dq ++ " not found.")), w0))
    by reflexivity.
  split; [exact Hrun|].
  exact (proj1 (not_found_is_atomic (demo_host None) (Some build_manifest))
           _ _ _ _ _ _ Hrun).
Defined.


(** ** The output-suppression flag *)

(** C10. [runCommand] writes ["false"] to [process.env.YARN_WRAP_OUTPUT]
    exactly when the list [cmds] holds at least one step. It writes nothing
    else to it, and leaves it as it was when [cmds] is empty, that is, when
    the action ends in the [env] built-in or in the "not found" error. *)
Theorem wrap_output_flag (h : host) (pkgScripts : option (gmap string string))
    (table : JsMap.t) (action : string) (args : list string) (w : world)
    (r : outcome unit) (w' : world) :
  runCommand h pkgScripts table action args w = (r, w') →
  ∃ evs,
    trace w' = (trace w ++ evs)%list ∧
    ((∃ step cmds, build_cmds pkgScripts table action = Returned (step :: cmds)) ↔
     SetYarnWrapOutput "false" ∈ evs) ∧
    (∀ v, SetYarnWrapOutput v ∈ evs → v = "false" ∧ YARN_WRAP_OUTPUT w' = Some "false") ∧
    ((∀ v, SetYarnWrapOutput v ∉ evs) → YARN_WRAP_OUTPUT w' = YARN_WRAP_OUTPUT w) ∧
    (build_cmds pkgScripts table action = Returned [] →
     (∀ v, SetYarnWrapOutput v ∉ evs) ∧ YARN_WRAP_OUTPUT w' = YARN_WRAP_OUTPUT w).
Proof.
  intros Hrun.
  destruct (build_cmds pkgScripts table action) as [[|step cmds]|e] eqn:Hcmds.
  - rewrite runCommand_cases, Hcmds in Hrun.
    destruct (String.eqb action "env"); injection Hrun as <- <-.
    + exists [ReporterLog (makeEnv_text h) true]. cbn [YARN_WRAP_OUTPUT trace].
      assert (Hno : ∀ v, SetYarnWrapOutput v ∉ [ReporterLog (makeEnv_text h) true]).
      { intros v Hin. by apply list_elem_of_singleton in Hin. }
      split_and!; try done.
      * split; [by intros (? & ? & ?) | by intros ?%Hno].
      * by intros v ?%Hno.
    + exists []. rewrite app_nil_r.
      assert (Hno : ∀ v, SetYarnWrapOutput v ∉ ([] : list event)).
      { intros v Hin. by apply elem_of_nil in Hin. }
      split_and!; try done.
      * split; [by intros (? & ? & ?) | by intros ?%Hno].
      * by intros v ?%Hno.
  - destruct (runCommand_plan h pkgScripts table action args w step cmds Hcmds)
      as (r0 & n & Heq & _).
    rewrite Heq in Hrun. injection Hrun as <- <-.
    eexists. cbn [YARN_WRAP_OUTPUT trace]. split; [reflexivity|].
    split_and!.
    + split; [intros _; by left | by eauto].
    + intros v Hin. split; [|done].
      apply elem_of_cons in Hin as [[=]|Hin]; [done|].
      apply list_elem_of_fmap in Hin as (? & ? & _). done.
    + intros Hno. exfalso. apply (Hno "false"). by left.
    + done.
  - rewrite runCommand_cases, Hcmds in Hrun. injection Hrun as <- <-.
    exists []. rewrite app_nil_r.
    assert (Hno : ∀ v, SetYarnWrapOutput v ∉ ([] : list event)).
    { intros v Hin. by apply elem_of_nil in Hin. }
    split_and!; try done.
    + split; [by intros (? & ? & ?) | by intros ?%Hno].
    + by intros v ?%Hno.
Qed.

Lemma wrap_output_flag_witness :
  runCommand (demo_host None) (Some build_manifest)
    (scripts (build (demo_host None) ["/a/.bin"] (Some build_manifest)))
    "build" ["--fast"] w0
  = (Returned tt,
     World (Some "false")
       [SetYarnWrapOutput "false"; ExecCommand "prebuild" "clean" None;
        ExecCommand "build" "compile --fast" None;
        ExecCommand "postbuild" "notify" None]) ∧
  ∃ evs,
    [SetYarnWrapOutput "false"; ExecCommand "prebuild" "clean" None;
     ExecCommand "build" "compile --fast" None;
     ExecCommand "postbuild" "notify" None] = ([] ++ evs)%list ∧
    SetYarnWrapOutput "false" ∈ evs.
Proof.
  assert (Hrun : runCommand (demo_host None) (Some build_manifest)
            (scripts (build (demo_host None) ["/a/.bin"] (Some build_manifest)))
            "build" ["--fast"] w0
          = (Returned tt,
             World (Some "false")
               [SetYarnWrapOutput "false"; ExecCommand "prebuild" "clean" None;
                ExecCommand "build" "compile --fast" None;
                ExecCommand "postbuild" "notify" None])) by reflexivity.
  split; [exact Hrun|].
  destruct (wrap_output_flag _ _ _ _ _ _ _ _ Hrun) as (evs & Htr & Hiff & _).
  exists evs. split; [exact Htr|].
  apply Hiff. by eexists _, _.
Defined.

(** ** The [env] built-in *)

(** C5, as the claim states it, fails: a manifest script named [env], or an
    executable named [env], is run in place of the built-in. *)
Lemma env_is_shadowed :
  runCommand (demo_host None) None
    (scripts (build (demo_host None) ["/a/.bin"] None)) "env" [] w0
  = (Returned tt, World None [ReporterLog "{}" true]) ∧
  runCommand (demo_host None) (Some {[ "env" := "printenv" ]})
    (scripts (build (demo_host None) ["/a/.bin"] (Some {[ "env" := "printenv" ]})))
    "env" [] w0
  = (Returned tt,
     World (Some "false")
       [SetYarnWrapOutput "false"; ExecCommand "env" "printenv" None]) ∧
  runCommand (demo_host None) None
    (scripts (build (demo_host None) ["/b/.bin"] None)) "env" [] w0
  = (Returned tt,
     World (Some "false")
       [SetYarnWrapOutput "false"; ExecCommand "env" "/b/.bin/env" None]).
Proof. split_and!; reflexivity. Qed.

(** C5, amended. Resolving [env] logs the computed environment, starts no
    command and leaves the flag alone exactly when neither the manifest's
    scripts nor the table has an entry named [env]. *)
Theorem env_builtin_unless_shadowed (h : host) (pkgScripts : option (gmap string string))
    (table : JsMap.t) (args : list string) (w : world) :
  (in_scripts "env" pkgScripts = false ∧ JsMap.has "env" table = false) ↔
  runCommand h pkgScripts table "env" args w =
    (Returned tt,
     World (YARN_WRAP_OUTPUT w) (trace w ++ [ReporterLog (makeEnv_text h) true])).
Proof.
  assert (Henv : "env" ∉ Object_prototype_names)
    by (apply (bool_decide_unpack _); by vm_compute).
  rewrite <- (has_property_not_inherited pkgScripts "env" Henv).
  change (not_found pkgScripts table "env" ↔
          runCommand h pkgScripts table "env" args w =
          (Returned tt,
           World (YARN_WRAP_OUTPUT w) (trace w ++ [ReporterLog (makeEnv_text h) true]))).
  rewrite runCommand_cases.
  destruct (build_cmds pkgScripts table "env") as [[|step cmds]|e] eqn:Hcmds.
  - apply build_cmds_nil in Hcmds. done.
  - split.
    + intros Hnf. apply build_cmds_nil in Hnf. congruence.
    + intros Hrun. exfalso.
      destruct (exec_loop h "env" args (step :: cmds)
                  (World (Some "false") (trace w ++ [SetYarnWrapOutput "false"])))
        as (r & n & Heq & _).
      rewrite Heq in Hrun. cbn [YARN_WRAP_OUTPUT trace] in Hrun.
      injection Hrun as _ _ Htr. rewrite <- app_assoc in Htr.
      apply app_inv_head in Htr. done.
  - split.
    + intros Hnf. apply build_cmds_nil in Hnf. congruence.
    + done.
Qed.

Lemma env_builtin_unless_shadowed_witness :
  (in_scripts "env" (Some build_manifest) = false ∧
   JsMap.has "env" (scripts (build (demo_host None) ["/a/.bin"] (Some build_manifest)))
     = false) ∧
  runCommand (demo_host None) (Some build_manifest)
    (scripts (build (demo_host None) ["/a/.bin"] (Some build_manifest))) "env" ["x"] w0
  = (Returned tt, World None [ReporterLog "{}" true]).
Proof.
  assert (Hnf : in_scripts "env" (Some build_manifest) = false ∧
                JsMap.has "env"
                  (scripts (build (demo_host None) ["/a/.bin"] (Some build_manifest)))
                = false) by (split; reflexivity).
  split; [exact Hnf|].
  exact (proj1 (env_builtin_unless_shadowed (demo_host None) (Some build_manifest)
                  _ ["x"] w0) Hnf).
Defined.

(** ** Manifest actions *)

Lemma length_append (a b : string) :
  String.length (a ++ b) = (String.length a + String.length b)%nat.
Proof.
  induction a as [|c a IH]; [done|].
  change (S (String.length (a ++ b)) = S (String.length a + String.length b)).
  by rewrite IH.
Qed.

(** A hook's stage is never the action itself. *)
Lemma prefixed_ne (prefix action : string) :
  prefix ≠ "" → String.eqb (prefix ++ action) action = false.
Proof.
  intros Hne. apply String.eqb_neq. intros Heq.
  apply (f_equal String.length) in Heq. rewrite length_append in Heq.
  destruct prefix; [done|]. simpl in Heq. lia.
Qed.

Lemma hook_stage (pkgScripts : option (gmap string string)) (name : string)
    (step : string * string) :
  step ∈ hook pkgScripts name → step.1 = name.
Proof.
  unfold hook. destruct pkgScripts as [o|]; [destruct (o !! name)|];
    intros Hin; try by apply elem_of_nil in Hin.
  by apply list_elem_of_singleton in Hin as ->.
Qed.

(** The trailing arguments go to the main step and to no hook. *)
Lemma plan_hooks_untouched (h : host) (pkgScripts : option (gmap string string))
    (action script : string) (args : list string) :
  plan h action args
    (hook pkgScripts ("pre" ++ action) ++ [(action, script)]
     ++ hook pkgScripts ("post" ++ action)) =
  (hook pkgScripts ("pre" ++ action) ++ [(action, sh_unquoted_args h script args)]
   ++ hook pkgScripts ("post" ++ action))%list.
Proof.
  assert (Hhook : ∀ prefix, prefix ≠ "" →
            plan h action args (hook pkgScripts (prefix ++ action))
            = hook pkgScripts (prefix ++ action)).
  { intros prefix Hne. unfold plan.
    rewrite <- (map_id (hook pkgScripts (prefix ++ action))) at 2.
    apply map_ext_in. intros [stage cmd] Hin%list_elem_of_In.
    apply hook_stage in Hin. simpl in Hin. subst stage.
    unfold cmdWithArgs. simpl. by rewrite prefixed_ne. }
  unfold plan in *. rewrite !map_app, !Hhook by done. simpl.
  unfold cmdWithArgs. simpl. by rewrite String.eqb_refl.
Qed.

(** A manifest action whose command text is not empty resolves to its
    pre-hook if the manifest has one, the action itself, and its post-hook
    if the manifest has one, in this order. *)
Lemma manifest_action_cmds (h : host) (binFolders : list string)
    (o : gmap string string) (action body : string) :
  o !! action = Some body →
  body ≠ "" →
  build_cmds (Some o) (scripts (build h binFolders (Some o))) action =
  Returned (hook (Some o) ("pre" ++ action) ++ [(action, body)]
            ++ hook (Some o) ("post" ++ action))%list.
Proof.
  intros Hbody Hne. unfold build_cmds.
  rewrite has_property_own by eauto.
  rewrite build_get, Hbody. simpl.
  apply truthy_true_iff in Hne. by rewrite Hne.
Qed.

(** The example of the specification: [build] with [prebuild] and
    [postbuild], run with one trailing argument. *)
Lemma build_example_runs_three_steps :
  plan (demo_host None) "build" ["--fast"]
    [("prebuild", "clean"); ("build", "compile"); ("postbuild", "notify")]
  = [("prebuild", "clean"); ("build", "compile --fast"); ("postbuild", "notify")] ∧
  run (demo_host None) ["/a/.bin"] (Some build_manifest) ["build"; "--fast"] w0
  = (Returned tt,
     World (Some "false")
       [SetYarnWrapOutput "false"; ExecCommand "prebuild" "clean" None;
        ExecCommand "build" "compile --fast" None;
        ExecCommand "postbuild" "notify" None]).
Proof. split; reflexivity. Qed.

(** C1 at the input where it fails: a manifest action whose command text is
    empty has no plan. [invariant] takes the empty text for a missing script
    and throws before any step, hooks included, is started. *)
Theorem empty_manifest_action_has_no_plan :
  build_cmds (Some {[ "build" := ""; "prebuild" := "clean" ]})
    (scripts (build (demo_host None) ["/a/.bin"]
                (Some {[ "build" := ""; "prebuild" := "clean" ]}))) "build"
  = Thrown (InvariantViolation "Script must exist") ∧
  run (demo_host None) ["/a/.bin"] (Some {[ "build" := ""; "prebuild" := "clean" ]})
    ["build"; "--fast"] w0
  = (Thrown (InvariantViolation "Script must exist"), w0).
Proof. split; reflexivity. Qed.

(** C6 where it fails: a manifest script with an empty command text is put
    in the table under its name, and resolving it throws "Script must
    exist". *)
Theorem empty_script_fails_invariant (h : host) (binFolders : list string)
    (o : gmap string string) (action : string) (args : list string) (w : world) :
  o !! action = Some "" →
  JsMap.get action (scripts (build h binFolders (Some o))) = Some "" ∧
  runCommand h (Some o) (scripts (build h binFolders (Some o))) action args w
  = (Thrown (InvariantViolation "Script must exist"), w).
Proof.
  intros Hbody.
  assert (Hget : JsMap.get action (scripts (build h binFolders (Some o))) = Some "")
    by (by rewrite build_get, Hbody).
  split; [exact Hget|].
  rewrite runCommand_cases. unfold build_cmds.
  rewrite has_property_own by eauto. by rewrite Hget.
Qed.

Lemma empty_script_fails_invariant_witness :
  ({[ "build" := "" ]} : gmap string string) !! "build" = Some "" ∧
  JsMap.get "build" (scripts (build (demo_host None) ["/a/.bin"]
                                (Some {[ "build" := "" ]}))) = Some "" ∧
  runCommand (demo_host None) (Some {[ "build" := "" ]})
    (scripts (build (demo_host None) ["/a/.bin"] (Some {[ "build" := "" ]})))
    "build" [] w0
  = (Thrown (InvariantViolation "Script must exist"), w0).
Proof.
  assert (Hb : ({[ "build" := "" ]} : gmap string string) !! "build" = Some "")
    by reflexivity.
  split; [exact Hb|].
  exact (empty_script_fails_invariant (demo_host None) ["/a/.bin"]
           {[ "build" := "" ]} "build" [] w0 Hb).
Defined.

(** ** Suggestions *)

(** C4 where it fails. The loop of lines 126-131 visits no name, so it
    leaves no candidate whatever the table holds. With the manifest scripts
    [build] and [test], [build] is at distance 1 of [buld] and the same loop
    over the keys of the table would leave [build]; the error nonetheless
    carries no addendum. *)
Theorem suggestion_is_never_found :
  (∀ (table : JsMap.t) (action : string), suggest (JsMap.for_in table) action = None) ∧
  JsMap.keys (scripts (build (demo_host None) [] (Some two_scripts))) = ["build"; "test"] ∧
  leven "build" "buld" = 1 ∧
  suggest (JsMap.keys (scripts (build (demo_host None) [] (Some two_scripts)))) "buld"
    = Some "build" ∧
  run (demo_host None) [] (Some two_scripts) ["buld"] w0
  = (Thrown (MessageError ("Command " ++ dq ++ "buld" ++ dq ++ " not found.")), w0).
Proof. split_and!; reflexivity. Qed.

(** The other half of the example: nothing is near [xyz]. *)
Lemma xyz_has_no_suggestion :
  suggest (JsMap.keys (scripts (build (demo_host None) [] (Some two_scripts)))) "xyz"
    = None ∧
  run (demo_host None) [] (Some two_scripts) ["xyz"] w0
  = (Thrown (MessageError ("Command " ++ dq ++ "xyz" ++ dq ++ " not found.")), w0).
Proof. split; reflexivity. Qed.

(** ** No action given *)

Lemma JsSet_elem_of_add (x y : string) (s : JsSet.t) :
  y ∈ JsSet.add x s ↔ y = x ∨ y ∈ s.
Proof.
  unfold JsSet.add. case_bool_decide as Hin.
  - split; [by right | by intros [->|?]].
  - rewrite elem_of_app, list_elem_of_singleton. tauto.
Qed.

(** The executables' names are the names some directory provides. *)
Lemma binCommands_elem_of (h : host) (binFolders : list string)
    (pkgScripts : option (gmap string string)) (name : string) :
  name ∈ binCommands (build h binFolders pkgScripts) ↔
  ∃ f, f ∈ binFolders ∧ provides h f name.
Proof.
  unfold build. simpl. unfold scanFolders.
  assert (Hin : ∀ f names st,
            name ∈ (fold_left (addBinEntry h f) names st).2 ↔
            name ∈ st.2 ∨ name ∈ names).
  { intros f names. induction names as [|n names IH]; intros st; simpl.
    - rewrite elem_of_nil. tauto.
    - rewrite IH. simpl. rewrite JsSet_elem_of_add, elem_of_cons. tauto. }
  assert (Hgen : ∀ st,
            name ∈ (fold_left (scanFolder h) binFolders st).2 ↔
            name ∈ st.2 ∨ ∃ f, f ∈ binFolders ∧ provides h f name).
  { induction binFolders as [|f fs IH]; intros st; simpl.
    - split; [by left | intros [?|(? & []%elem_of_nil & _)]; done].
    - rewrite IH. unfold scanFolder, provides.
      destruct (fs_exists h f) eqn:He.
      + rewrite Hin. split.
        * intros [[?|?]|(g & ? & ?)]; [by left | right | right].
          -- exists f. split; [by left | done].
          -- exists g. split; [by right | done].
        * intros [?|(g & Hg & He' & Hn)]; [by left; left|].
          apply elem_of_cons in Hg as [->|Hg]; [by left; right|].
          right. by eauto.
      + split.
        * intros [?|(g & ? & ?)]; [by left | right].
          exists g. split; [by right | done].
        * intros [?|(g & Hg & He' & Hn)]; [by left|].
          apply elem_of_cons in Hg as [->|Hg]; [congruence|].
          right. by eauto. }
  rewrite Hgen. simpl. rewrite elem_of_nil. tauto.
Qed.

(** C8. With no action, no manifest script and at least one executable,
    [run] reports that no command was specified, lists the names of the
    executables, reports that no scripts are available, and returns: it asks
    no question and starts no command. *)
Theorem no_action_no_scripts (h : host) (binFolders : list string)
    (pkgScripts : option (gmap string string)) (w : world) :
  pkgCommands (build h binFolders pkgScripts) = [] →
  binCommands (build h binFolders pkgScripts) ≠ [] →
  run h binFolders pkgScripts [] w =
    (Returned tt,
     World (YARN_WRAP_OUTPUT w)
       (trace w ++
        [ReporterError (lang h "commandNotSpecified");
         ReporterInfo (lang h "binCommands"
                       ++ join ", " (binCommands (build h binFolders pkgScripts)));
         ReporterError (lang h "noScriptsAvailable")])) ∧
  ∀ name, name ∈ binCommands (build h binFolders pkgScripts) ↔
          ∃ f, f ∈ binFolders ∧ provides h f name.
Proof.
  intros Hpkgs Hbins. split; [|intros name; apply binCommands_elem_of].
  unfold run, bind, emit. rewrite Hpkgs.
  destruct (binCommands (build h binFolders pkgScripts)) as [|b bins] eqn:Hb; [done|].
  simpl. by rewrite <- !app_assoc.
Qed.

Lemma no_action_no_scripts_witness :
  pkgCommands (build (demo_host None) ["/a/.bin"; "/b/.bin"] None) = [] ∧
  binCommands (build (demo_host None) ["/a/.bin"; "/b/.bin"] None) ≠ [] ∧
  run (demo_host None) ["/a/.bin"; "/b/.bin"] None [] w0 =
    (Returned tt,
     World None
       [ReporterError "commandNotSpecified";
        ReporterInfo "binCommandslint, tsc, env";
        ReporterError "noScriptsAvailable"]).
Proof.
  assert (H1 : pkgCommands (build (demo_host None) ["/a/.bin"; "/b/.bin"] None) = [])
    by reflexivity.
  assert (H2 : binCommands (build (demo_host None) ["/a/.bin"; "/b/.bin"] None) ≠ [])
    by discriminate.
  split_and!; [exact H1 | exact H2 |].
  exact (proj1 (no_action_no_scripts (demo_host None) ["/a/.bin"; "/b/.bin"] None w0
                  H1 H2)).
Defined.


(** * Further properties of the code *)

(** ** The table and the two sets *)

Lemma JsSet_add_NoDup (x : string) (s : JsSet.t) : NoDup s → NoDup (JsSet.add x s).
Proof.
  intros Hnd. unfold JsSet.add. case_bool_decide as Hin; [done|].
  apply NoDup_app. split_and!; [done | | apply NoDup_singleton].
  intros y Hy Hy'. apply list_elem_of_singleton in Hy'. by subst.
Qed.

(** Adding names that are new and distinct appends them in order. *)
Lemma JsSet_add_fresh (names : list string) (s : JsSet.t) :
  NoDup names → (∀ x, x ∈ names → x ∉ s) →
  fold_left (λ acc x, JsSet.add x acc) names s = (s ++ names)%list.
Proof.
  revert s. induction names as [|n names IH]; intros s Hnd Hfresh; simpl.
  - by rewrite app_nil_r.
  - apply NoDup_cons in Hnd as [Hn Hnd].
    unfold JsSet.add at 2. rewrite bool_decide_eq_false_2
      by (apply Hfresh; by left).
    rewrite IH; [by rewrite <- app_assoc | done |].
    intros x Hx Hin. apply elem_of_app in Hin as [Hin|Hin].
    + apply (Hfresh x); [by right | done].
    + apply list_elem_of_singleton in Hin. by subst.
Qed.

Lemma sorted_keys_NoDup (o : gmap string string) : NoDup (sorted_keys o).
Proof.
  unfold sorted_keys. rewrite merge_sort_Permutation.
  apply NoDup_fst_map_to_list.
Qed.

Lemma fold_scanFolder_get_other (h : host) (binFolders : list string)
    (st : JsMap.t * JsSet.t) (name : string) :
  (∀ g, g ∈ binFolders → ¬ provides h g name) →
  JsMap.get name (fold_left (scanFolder h) binFolders st).1 = JsMap.get name st.1.
Proof.
  revert st. induction binFolders as [|f fs IH]; intros st Hno; simpl; [done|].
  rewrite IH.
  - apply scanFolder_get_other, Hno. by left.
  - intros g Hg. apply Hno. by right.
Qed.

Lemma scanFolder_skip (h : host) (st : JsMap.t * JsSet.t) (binFolder : string) :
  fs_exists h binFolder = false ∨ fs_readdir h binFolder = [] →
  scanFolder h st binFolder = st.
Proof.
  unfold scanFolder. intros [->| ->]; [done|].
  by destruct (fs_exists h binFolder).
Qed.

(** X1. A directory that does not exist, or that exists and is empty, is
    passed over: the table and the two sets are what they are without it. *)
Theorem missing_directory_is_skipped (h : host) (before after : list string)
    (binFolder : string) (pkgScripts : option (gmap string string)) :
  fs_exists h binFolder = false ∨ fs_readdir h binFolder = [] →
  build h (before ++ binFolder :: after) pkgScripts = build h (before ++ after) pkgScripts.
Proof.
  intros Hskip. unfold build, scanFolders.
  rewrite !fold_left_app. simpl. by rewrite scanFolder_skip.
Qed.

Lemma missing_directory_is_skipped_witness :
  (fs_exists (demo_host None) "/c/.bin" = false ∨ fs_readdir (demo_host None) "/c/.bin" = []) ∧
  build (demo_host None) (["/a/.bin"] ++ "/c/.bin" :: ["/b/.bin"]) (Some build_manifest)
  = build (demo_host None) (["/a/.bin"] ++ ["/b/.bin"]) (Some build_manifest).
Proof.
  assert (H : fs_exists (demo_host None) "/c/.bin" = false
              ∨ fs_readdir (demo_host None) "/c/.bin" = []) by (left; reflexivity).
  split; [exact H|].
  exact (missing_directory_is_skipped (demo_host None) ["/a/.bin"] ["/b/.bin"]
           "/c/.bin" (Some build_manifest) H).
Defined.

(** X2. The keys of the table are the names that some scanned directory
    provides together with the keys of the manifest's scripts, and nothing
    else. *)
Theorem table_keys_are_bins_and_scripts (h : host) (binFolders : list string)
    (pkgScripts : option (gmap string string)) (name : string) :
  name ∈ JsMap.keys (scripts (build h binFolders pkgScripts)) ↔
  (∃ f, f ∈ binFolders ∧ provides h f name) ∨ in_scripts name pkgScripts = true.
Proof.
  rewrite <- JsMap_get_is_Some, build_get. unfold in_scripts.
  destruct pkgScripts as [o|].
  - destruct (o !! name) as [body|] eqn:Hb.
    + rewrite bool_decide_eq_true_2 by eauto. split; [by right | by eauto].
    + rewrite bool_decide_eq_false_2 by (by intros [? ?]).
      rewrite scanFolders_get_is_Some. split; [by left | by intros [?|?]].
  - rewrite scanFolders_get_is_Some. split; [by left | by intros [?|?]].
Qed.

(** X3. For a name that the manifest does not declare, the table holds the
    quoted path in the last scanned directory that provides it. *)
Theorem last_directory_decides (h : host) (before after : list string)
    (binFolder name : string) (pkgScripts : option (gmap string string)) :
  provides h binFolder name →
  (∀ g, g ∈ after → ¬ provides h g name) →
  in_scripts name pkgScripts = false →
  JsMap.get name (scripts (build h (before ++ binFolder :: after) pkgScripts))
  = Some (quoteForShell h (path_join h binFolder name)).
Proof.
  intros Hp Hafter Hin.
  assert (Hbins : JsMap.get name (scanFolders h (before ++ binFolder :: after)).1
                  = Some (bin_path h binFolder name)).
  { unfold scanFolders. rewrite fold_left_app. simpl.
    rewrite fold_scanFolder_get_other by done.
    by apply scanFolder_get_provided. }
  rewrite build_get. destruct pkgScripts as [o|]; [|exact Hbins].
  simpl in Hin. apply bool_decide_eq_false in Hin.
  destruct (o !! name) eqn:Hb; [|exact Hbins]. exfalso. apply Hin. by eauto.
Qed.

Lemma last_directory_decides_witness :
  provides (demo_host None) "/b/.bin" "lint" ∧
  (∀ g, g ∈ ["/c/.bin"] → ¬ provides (demo_host None) g "lint") ∧
  in_scripts "lint" (Some build_manifest) = false ∧
  JsMap.get "lint"
    (scripts (build (demo_host None) (["/a/.bin"] ++ "/b/.bin" :: ["/c/.bin"])
                (Some build_manifest)))
  = Some "/b/.bin/lint".
Proof.
  assert (Hp : provides (demo_host None) "/b/.bin" "lint").
  { split; [reflexivity|]. vm_compute. by left. }
  assert (Hafter : ∀ g, g ∈ ["/c/.bin"] → ¬ provides (demo_host None) g "lint").
  { intros g Hg [He _]. apply list_elem_of_singleton in Hg. subst g. discriminate. }
  assert (Hin : in_scripts "lint" (Some build_manifest) = false) by reflexivity.
  split_and!; [exact Hp | exact Hafter | exact Hin |].
  exact (last_directory_decides (demo_host None) ["/a/.bin"] ["/c/.bin"] "/b/.bin"
           "lint" (Some build_manifest) Hp Hafter Hin).
Defined.

Lemma scanFolders_bins_NoDup (h : host) (binFolders : list string) :
  NoDup (scanFolders h binFolders).2.
Proof.
  unfold scanFolders.
  assert (Hin : ∀ f names st, NoDup st.2 →
            NoDup (fold_left (addBinEntry h f) names st).2).
  { intros f names. induction names as [|n names IH]; intros st Hnd; simpl; [done|].
    apply IH. simpl. by apply JsSet_add_NoDup. }
  assert (Hgen : ∀ st, NoDup st.2 →
            NoDup (fold_left (scanFolder h) binFolders st).2).
  { induction binFolders as [|f fs IH]; intros st Hnd; simpl; [done|].
    apply IH. unfold scanFolder. destruct (fs_exists h f); [by apply Hin | done]. }
  apply Hgen. apply NoDup_nil_2.
Qed.

(** X4. The set of executables holds every name that a scanned directory
    provides, once, whether or not the manifest declares a script of that
    name: the manifest loop does not touch it. *)
Theorem binCommands_ignore_manifest (h : host) (binFolders : list string)
    (pkgScripts : option (gmap string string)) :
  NoDup (binCommands (build h binFolders pkgScripts)) ∧
  binCommands (build h binFolders pkgScripts) = binCommands (build h binFolders None) ∧
  ∀ name, name ∈ binCommands (build h binFolders pkgScripts) ↔
          ∃ f, f ∈ binFolders ∧ provides h f name.
Proof.
  split_and!; [apply scanFolders_bins_NoDup | done |].
  intros name. apply binCommands_elem_of.
Qed.

Lemma fold_addPkgScript_names (o : gmap string string) (names : list string)
    (st : JsMap.t * JsSet.t) :
  (fold_left (addPkgScript o) names st).2 = fold_left (λ acc x, JsSet.add x acc) names st.2.
Proof. revert st. induction names as [|n names IH]; intros st; simpl; [done | by rewrite IH]. Qed.

Lemma pkgCommands_Some (h : host) (binFolders : list string) (o : gmap string string) :
  pkgCommands (build h binFolders (Some o)) = sorted_keys o.
Proof.
  unfold build. simpl. rewrite fold_addPkgScript_names. simpl.
  rewrite JsSet_add_fresh; [done | apply sorted_keys_NoDup |].
  intros x _. apply not_elem_of_nil.
Qed.

(** X5. The set of manifest commands is the list of the keys of the
    manifest's scripts in ascending order, each once; it is empty when the
    manifest has no [scripts]. *)
Theorem pkgCommands_are_sorted_keys (h : host) (binFolders : list string) :
  pkgCommands (build h binFolders None) = [] ∧
  ∀ o : gmap string string,
    pkgCommands (build h binFolders (Some o)) = sorted_keys o ∧
    NoDup (pkgCommands (build h binFolders (Some o))) ∧
    Sorted String.le (pkgCommands (build h binFolders (Some o))) ∧
    ∀ name, name ∈ pkgCommands (build h binFolders (Some o)) ↔ is_Some (o !! name).
Proof.
  split; [done|]. intros o. rewrite pkgCommands_Some.
  split_and!; [done | apply sorted_keys_NoDup | |].
  - unfold sorted_keys. apply Sorted_merge_sort. apply _.
  - intros name. apply sorted_keys_elem_of.
Qed.

(** ** Running a resolved action *)

(** X6. An action that is no property of the manifest's scripts, neither a
    key nor an inherited name, but has a table entry runs as one step: the
    entry, followed by the trailing arguments when there are any. The
    manifest's [pre] and [post] scripts of that name, if any, are not run. *)
Theorem executable_runs_single_step (h : host) (pkgScripts : option (gmap string string))
    (table : JsMap.t) (action path : string) (args : list string) (w : world) :
  has_property action pkgScripts = false →
  JsMap.get action table = Some path →
  path ≠ "" →
  build_cmds pkgScripts table action = Returned [(action, path)] ∧
  runCommand h pkgScripts table action args w =
    (if exec_ok h (trace w ++ [SetYarnWrapOutput "false"]) action
          (sh_unquoted_args h path args) (customShell h)
     then Returned tt else Thrown (ExecFailure action),
     World (Some "false")
       (trace w ++
        [SetYarnWrapOutput "false";
         ExecCommand action (sh_unquoted_args h path args) (customShell h)])).
Proof.
  intros Hin Hget Hne.
  assert (Hcmds : build_cmds pkgScripts table action = Returned [(action, path)]).
  { unfold build_cmds, JsMap.has. rewrite Hin, Hget. simpl.
    apply truthy_true_iff in Hne. by rewrite Hne. }
  split; [exact Hcmds|].
  rewrite runCommand_cases, Hcmds. cbn [for_of]. unfold bind, execCommand, ret.
  cbn [YARN_WRAP_OUTPUT trace fst snd]. unfold cmdWithArgs. cbn [fst snd].
  rewrite String.eqb_refl. rewrite <- app_assoc.
  by destruct (exec_ok h _ _ _ _).
Qed.

Lemma executable_runs_single_step_witness :
  has_property "lint" (Some {[ "prelint" := "echo pre" ]}) = false ∧
  JsMap.get "lint" (scripts (build (demo_host None) ["/a/.bin"]
                               (Some {[ "prelint" := "echo pre" ]})))
    = Some "/a/.bin/lint" ∧
  "/a/.bin/lint" ≠ "" ∧
  runCommand (demo_host None) (Some {[ "prelint" := "echo pre" ]})
    (scripts (build (demo_host None) ["/a/.bin"] (Some {[ "prelint" := "echo pre" ]})))
    "lint" [] w0
  = (Returned tt,
     World (Some "false")
       [SetYarnWrapOutput "false"; ExecCommand "lint" "/a/.bin/lint" None]).
Proof.
  assert (H1 : has_property "lint" (Some {[ "prelint" := "echo pre" ]}) = false)
    by reflexivity.
  assert (H2 : JsMap.get "lint"
                 (scripts (build (demo_host None) ["/a/.bin"]
                             (Some {[ "prelint" := "echo pre" ]})))
               = Some "/a/.bin/lint") by reflexivity.
  assert (H3 : "/a/.bin/lint" ≠ "") by discriminate.
  split_and!; [exact H1 | exact H2 | exact H3 |].
  exact (proj2 (executable_runs_single_step (demo_host None) _ _ "lint" _ [] w0
                  H1 H2 H3)).
Defined.

(** The same executable with trailing arguments; and an executable whose
    name the scripts object inherits, which goes through the manifest
    branch, hooks included. *)
Lemma executable_examples :
  runCommand (demo_host None) (Some {[ "prelint" := "echo pre" ]})
    (scripts (build (demo_host None) ["/a/.bin"] (Some {[ "prelint" := "echo pre" ]})))
    "lint" ["src"; "--fix"] w0
  = (Returned tt,
     World (Some "false")
       [SetYarnWrapOutput "false"; ExecCommand "lint" "/a/.bin/lint src --fix" None]) ∧
  runCommand (demo_host None) (Some {[ "preconstructor" := "echo pre" ]})
    [("constructor", "/a/.bin/constructor")] "constructor" [] w0
  = (Returned tt,
     World (Some "false")
       [SetYarnWrapOutput "false"; ExecCommand "preconstructor" "echo pre" None;
        ExecCommand "constructor" "/a/.bin/constructor" None]).
Proof. split; reflexivity. Qed.

(** X7. A manifest action whose command text is not empty resolves to its
    [pre] script if the manifest has one, the action, and its [post] script
    if the manifest has one, in this order; the trailing arguments are
    appended to the action's text only, the hooks run as written. *)
Theorem manifest_action_plan (h : host) (binFolders : list string)
    (o : gmap string string) (action body : string) (args : list string) :
  o !! action = Some body →
  body ≠ "" →
  ∃ cmds,
    build_cmds (Some o) (scripts (build h binFolders (Some o))) action = Returned cmds ∧
    plan h action args cmds =
      (hook (Some o) ("pre" ++ action)
       ++ [(action, sh_unquoted_args h body args)]
       ++ hook (Some o) ("post" ++ action))%list.
Proof.
  intros Hbody Hne. eexists. split; [by apply manifest_action_cmds|].
  apply plan_hooks_untouched.
Qed.

Lemma manifest_action_plan_witness :
  build_manifest !! "build" = Some "compile" ∧
  "compile" ≠ "" ∧
  ∃ cmds,
    build_cmds (Some build_manifest)
      (scripts (build (demo_host None) ["/a/.bin"] (Some build_manifest))) "build"
    = Returned cmds ∧
    plan (demo_host None) "build" [] cmds =
      [("prebuild", "clean"); ("build", "compile"); ("postbuild", "notify")].
Proof.
  assert (H1 : build_manifest !! "build" = Some "compile") by reflexivity.
  assert (H2 : "compile" ≠ "") by discriminate.
  split_and!; [exact H1 | exact H2 |].
  exact (manifest_action_plan (demo_host None) ["/a/.bin"] build_manifest "build"
           "compile" [] H1 H2).
Defined.

(** The loop of lines 111-120, with what stops it. *)
Lemma exec_loop_stops (h : host) (action : string) (args : list string)
    (cmds : list (string * string)) (w : world) (r : outcome unit) (w' : world) :
  for_of cmds (λ step, execCommand h step.1 (cmdWithArgs h action args step)) w = (r, w') →
  ∃ n,
    (n ≤ length cmds)%nat ∧
    YARN_WRAP_OUTPUT w' = YARN_WRAP_OUTPUT w ∧
    trace w' = (trace w ++ map (exec_event h) (take n (plan h action args cmds)))%list ∧
    match r with
    | Returned _ => n = length cmds
    | Thrown e =>
        ∃ k failed,
          n = S k ∧ plan h action args cmds !! k = Some failed ∧
          e = ExecFailure failed.1 ∧
          exec_ok h (trace w ++ map (exec_event h) (take k (plan h action args cmds)))
            failed.1 failed.2 (customShell h) = false
    end.
Proof.
  revert w. induction cmds as [|step cmds IH]; intros w Hrun.
  - injection Hrun as <- <-. exists 0. simpl. by rewrite app_nil_r.
  - cbn [for_of] in Hrun. unfold bind, execCommand at 1 in Hrun.
    destruct (exec_ok h (trace w) step.1 (cmdWithArgs h action args step)
                (customShell h)) eqn:Hok.
    + apply IH in Hrun as (n & Hle & Hflag & Htr & Hr).
      cbn [YARN_WRAP_OUTPUT trace] in Hflag, Htr, Hr.
      exists (S n). split_and!; [simpl; lia | done | |].
      * rewrite Htr, <- app_assoc. done.
      * destruct r as [u|e]; [simpl; lia|].
        destruct Hr as (k & failed & -> & Hk & -> & Hfail).
        exists (S k), failed. split_and!; try done.
        rewrite <- app_assoc in Hfail. done.
    + injection Hrun as <- <-. exists 1. cbn [YARN_WRAP_OUTPUT trace].
      split_and!; [simpl; lia | done | done | ].
      exists 0, (step.1, cmdWithArgs h action args step).
      split_and!; try done. simpl. by rewrite app_nil_r.
Qed.

(** X8. With a non-empty list [cmds], [runCommand] writes the flag and then
    starts the steps of the plan one after the other, first to last, each
    with the same shell. It returns when all have run. When a step fails it
    throws that step's failure and starts none of the steps after it. *)
Theorem steps_run_in_order_until_failure (h : host)
    (pkgScripts : option (gmap string string)) (table : JsMap.t) (action : string)
    (args : list string) (w : world) (cmds : list (string * string))
    (r : outcome unit) (w' : world) :
  build_cmds pkgScripts table action = Returned cmds →
  cmds ≠ [] →
  runCommand h pkgScripts table action args w = (r, w') →
  ∃ n,
    (1 ≤ n ≤ length cmds)%nat ∧
    YARN_WRAP_OUTPUT w' = Some "false" ∧
    trace w' = (trace w ++ SetYarnWrapOutput "false" ::
                  map (exec_event h) (take n (plan h action args cmds)))%list ∧
    match r with
    | Returned _ => n = length cmds
    | Thrown e =>
        ∃ failed, plan h action args cmds !! (n - 1)%nat = Some failed ∧
                  e = ExecFailure failed.1
    end.
Proof.
  intros Hcmds Hne Hrun. rewrite runCommand_cases, Hcmds in Hrun.
  destruct cmds as [|step cmds]; [done|].
  apply exec_loop_stops in Hrun as (n & Hle & Hflag & Htr & Hr).
  cbn [YARN_WRAP_OUTPUT trace] in Hflag, Htr.
  exists n. rewrite <- app_assoc in Htr. split_and!; try done.
  - destruct r as [u|e]; [simpl in *; lia|].
    destruct Hr as (k & ? & -> & _). lia.
  - destruct r as [u|e]; [done|].
    destruct Hr as (k & failed & -> & Hk & -> & _).
    exists failed. split; [|done]. by replace (S k - 1)%nat with k by lia.
Qed.

Lemma steps_run_in_order_until_failure_witness :
  build_cmds (Some build_manifest)
    (scripts (build failing_build_host ["/a/.bin"] (Some build_manifest))) "build"
  = Returned [("prebuild", "clean"); ("build", "compile"); ("postbuild", "notify")] ∧
  runCommand failing_build_host (Some build_manifest)
    (scripts (build failing_build_host ["/a/.bin"] (Some build_manifest)))
    "build" ["--fast"] w0
  = (Thrown (ExecFailure "build"),
     World (Some "false")
       [SetYarnWrapOutput "false"; ExecCommand "prebuild" "clean" (Some "/bin/zsh");
        ExecCommand "build" "compile --fast" (Some "/bin/zsh")]) ∧
  ∃ n, (1 ≤ n ≤ 3)%nat ∧
       [SetYarnWrapOutput "false"; ExecCommand "prebuild" "clean" (Some "/bin/zsh");
        ExecCommand "build" "compile --fast" (Some "/bin/zsh")]
       = ([] ++ SetYarnWrapOutput "false" ::
            map (exec_event failing_build_host)
              (take n (plan failing_build_host "build" ["--fast"]
                         [("prebuild", "clean"); ("build", "compile");
                          ("postbuild", "notify")])))%list.
Proof.
  assert (H1 : build_cmds (Some build_manifest)
                 (scripts (build failing_build_host ["/a/.bin"] (Some build_manifest)))
                 "build"
               = Returned [("prebuild", "clean"); ("build", "compile");
                           ("postbuild", "notify")]) by reflexivity.
  assert (H2 : runCommand failing_build_host (Some build_manifest)
                 (scripts (build failing_build_host ["/a/.bin"] (Some build_manifest)))
                 "build" ["--fast"] w0
               = (Thrown (ExecFailure "build"),
                  World (Some "false")
                    [SetYarnWrapOutput "false";
                     ExecCommand "prebuild" "clean" (Some "/bin/zsh");
                     ExecCommand "build" "compile --fast" (Some "/bin/zsh")]))
    by reflexivity.
  split_and!; [exact H1 | exact H2 |].
  destruct (steps_run_in_order_until_failure _ _ _ _ _ _ _ _ _ H1 ltac:(discriminate) H2)
    as (n & Hn & _ & Htr & _).
  exists n. split; [exact Hn | exact Htr].
Defined.

(** X9. When no execution fails, every step of the plan is run, in order,
    and [runCommand] returns. *)
Theorem all_steps_run_when_none_fails (h : host)
    (pkgScripts : option (gmap string string)) (table : JsMap.t) (action : string)
    (args : list string) (w : world) (cmds : list (string * string)) :
  (∀ tr stage cmd, exec_ok h tr stage cmd (customShell h) = true) →
  build_cmds pkgScripts table action = Returned cmds →
  cmds ≠ [] →
  runCommand h pkgScripts table action args w =
    (Returned tt,
     World (Some "false")
       (trace w ++ SetYarnWrapOutput "false" ::
          map (exec_event h) (plan h action args cmds))).
Proof.
  intros Hok Hcmds Hne.
  destruct (runCommand h pkgScripts table action args w) as [r w'] eqn:Hrun.
  pose proof Hrun as Hrun'.
  rewrite runCommand_cases, Hcmds in Hrun'.
  destruct cmds as [|step cmds]; [done|].
  apply exec_loop_stops in Hrun' as (n & Hle & Hflag & Htr & Hr).
  cbn [YARN_WRAP_OUTPUT trace] in Hflag, Htr.
  destruct r as [[]|e].
  - subst n. rewrite firstn_all2 in Htr by (unfold plan; rewrite length_map; lia).
    destruct w' as [flag tr]. simpl in *. subst. by rewrite <- app_assoc.
  - destruct Hr as (k & failed & _ & _ & _ & Hfail). by rewrite Hok in Hfail.
Qed.

Lemma all_steps_run_when_none_fails_witness :
  (∀ tr stage cmd,
     exec_ok (demo_host None) tr stage cmd (customShell (demo_host None)) = true) ∧
  [("prebuild", "clean"); ("build", "compile"); ("postbuild", "notify")] ≠ [] ∧
  runCommand (demo_host None) (Some build_manifest)
    (scripts (build (demo_host None) ["/a/.bin"] (Some build_manifest)))
    "build" [] w0
  = (Returned tt,
     World (Some "false")
       [SetYarnWrapOutput "false"; ExecCommand "prebuild" "clean" None;
        ExecCommand "build" "compile" None; ExecCommand "postbuild" "notify" None]).
Proof.
  assert (H1 : ∀ tr stage cmd,
             exec_ok (demo_host None) tr stage cmd (customShell (demo_host None)) = true)
    by reflexivity.
  assert (H2 : [("prebuild", "clean"); ("build", "compile"); ("postbuild", "notify")]
               ≠ ([] : list (string * string))) by discriminate.
  split_and!; [exact H1 | exact H2 |].
  exact (all_steps_run_when_none_fails (demo_host None) (Some build_manifest)
           (scripts (build (demo_host None) ["/a/.bin"] (Some build_manifest)))
           "build" [] w0 _ H1 eq_refl H2).
Defined.

(** With trailing arguments, the action's text is followed by a space and
    the arguments joined by spaces; the hooks are run as written. *)
Lemma manifest_action_with_arguments :
  plan (demo_host None) "build" ["--fast"; "-v"]
    [("prebuild", "clean"); ("build", "compile"); ("postbuild", "notify")]
  = [("prebuild", "clean"); ("build", "compile --fast -v"); ("postbuild", "notify")].
Proof. reflexivity. Qed.

(** ** No action given, with manifest scripts *)

Lemma toObject_fold_lookup (m : JsMap.t) (acc : gmap string string) (k : string) :
  NoDup (JsMap.keys m) →
  fold_left (λ output kv, <[kv.1 := kv.2]> output) m acc !! k =
  match JsMap.get k m with
  | Some v => Some v
  | None => acc !! k
  end.
Proof.
  revert acc. induction m as [|[k' v'] m IH]; intros acc Hnd; simpl; [done|].
  apply NoDup_cons in Hnd as [Hk' Hnd]. rewrite IH by done.
  destruct (String.eqb_spec k k') as [->|Hne].
  - destruct (JsMap.get k' m) eqn:Hget.
    + exfalso. apply Hk'. apply JsMap_get_is_Some. by eauto.
    + simpl. by rewrite lookup_insert_eq.
  - destruct (JsMap.get k m); [done|]. simpl. by rewrite lookup_insert_ne.
Qed.

(** X10. [toObject] keeps every entry of a [Map], whose keys are distinct:
    reading a name from the object gives what [get] gives on the [Map]. *)
Theorem toObject_keeps_entries (m : JsMap.t) (k : string) :
  NoDup (JsMap.keys m) → toObject m !! k = JsMap.get k m.
Proof.
  intros Hnd. unfold toObject. rewrite toObject_fold_lookup by done.
  by destruct (JsMap.get k m).
Qed.

Lemma toObject_keeps_entries_witness :
  NoDup (JsMap.keys (JsMap.set "b" "2" (JsMap.set "a" "1" (JsMap.set "b" "0" JsMap.empty)))) ∧
  toObject (JsMap.set "b" "2" (JsMap.set "a" "1" (JsMap.set "b" "0" JsMap.empty))) !! "b"
  = Some "2".
Proof.
  assert (Hnd : NoDup (JsMap.keys
            (JsMap.set "b" "2" (JsMap.set "a" "1" (JsMap.set "b" "0" JsMap.empty))))).
  { repeat apply JsMap_keys_set_NoDup. apply NoDup_nil_2. }
  split; [exact Hnd|].
  exact (toObject_keeps_entries _ "b" Hnd).
Defined.

(** The [Map] that the loop of lines 153-157 fills. *)
Lemma printed_get (table : JsMap.t) (names : list string) (printed : JsMap.t)
    (k : string) :
  JsMap.get k (fold_left (λ p n, JsMap.set n (or_empty (JsMap.get n table)) p)
                 names printed) =
  if bool_decide (k ∈ names) then Some (or_empty (JsMap.get k table))
  else JsMap.get k printed.
Proof.
  revert printed. induction names as [|n names IH]; intros printed; simpl; [done|].
  fold_set_step IH.
Qed.

Lemma printed_keys_NoDup (table : JsMap.t) (names : list string) (printed : JsMap.t) :
  NoDup (JsMap.keys printed) →
  NoDup (JsMap.keys (fold_left (λ p n, JsMap.set n (or_empty (JsMap.get n table)) p)
                       names printed)).
Proof.
  revert printed. induction names as [|n names IH]; intros printed Hnd; simpl; [done|].
  apply IH. by apply JsMap_keys_set_NoDup.
Qed.

Lemma printCommands_Returned (table : JsMap.t) (names : list string) (printed : JsMap.t)
    (w : world) :
  (∀ n, n ∈ names → truthy_opt (JsMap.get n table) = true) →
  printCommands table names printed w =
    (Returned (fold_left (λ p n, JsMap.set n (or_empty (JsMap.get n table)) p)
                 names printed), w).
Proof.
  revert printed. induction names as [|n names IH]; intros printed Hall; [done|].
  cbn [printCommands fold_left]. unfold bind, printCommand, lift, invariant at 1.
  assert (Hn : truthy_opt (JsMap.get n table) = true) by (apply Hall; by left).
  destruct (JsMap.get n table) as [s|]; [|done]. simpl in Hn. rewrite Hn. simpl.
  rewrite Hn. apply IH. intros n' Hn'. apply Hall. by right.
Qed.

Lemma printCommands_Thrown (table : JsMap.t) (names : list string) (printed : JsMap.t)
    (w : world) :
  (∃ n, n ∈ names ∧ truthy_opt (JsMap.get n table) = false) →
  printCommands table names printed w =
    (Thrown (InvariantViolation "Action must exists"), w).
Proof.
  revert printed. induction names as [|n names IH]; intros printed (bad & Hin & Hbad).
  - by apply elem_of_nil in Hin.
  - cbn [printCommands]. unfold bind, printCommand, lift, invariant at 1.
    destruct (JsMap.get n table) as [s|] eqn:Hget; [|done].
    destruct (truthy s) eqn:Hs; [|done]. simpl.
    apply IH. exists bad. split; [|done].
    apply elem_of_cons in Hin as [->|Hin]; [|done].
    rewrite Hget in Hbad. simpl in Hbad. congruence.
Qed.

Lemma sorted_keys_nonempty (o : gmap string string) : o ≠ ∅ → sorted_keys o ≠ [].
Proof.
  intros Hne Hnil. apply map_choose in Hne as (i & x & Hix).
  assert (Hin : i ∈ sorted_keys o) by (apply sorted_keys_elem_of; eauto).
  rewrite Hnil in Hin. by apply elem_of_nil in Hin.
Qed.

(** What the reporter is told about the executables, lines 145-149. *)
Lemma bins_report (h : host) (bins : JsSet.t) (w : world) :
  (if Nat.ltb 0 (JsSet.size bins)
   then emit (ReporterInfo (lang h "binCommands" ++ join ", " bins))
   else emit (ReporterError (lang h "noBinAvailable"))) w =
  emit (if Nat.ltb 0 (JsSet.size bins)
        then ReporterInfo (lang h "binCommands" ++ join ", " bins)
        else ReporterError (lang h "noBinAvailable")) w.
Proof. by destruct (Nat.ltb 0 (JsSet.size bins)). Qed.

(** With no action and a manifest whose scripts all have a text, [run]
    reports, lists and asks, and goes on with the answer. *)
Lemma run_no_args_listing (h : host) (binFolders : list string)
    (o : gmap string string) (w : world) :
  o ≠ ∅ →
  (∀ name body, o !! name = Some body → body ≠ "") →
  run h binFolders (Some o) [] w =
  match question_answer h with
  | Some answer =>
      runCommand h (Some o) (scripts (build h binFolders (Some o)))
        (split " " answer).1 (split " " answer).2
  | None => emit (ReporterError (lang h "commandNotSpecified"))
  end
    (World (YARN_WRAP_OUTPUT w)
       (trace w ++
        [ReporterError (lang h "commandNotSpecified");
         if Nat.ltb 0 (JsSet.size (binCommands (build h binFolders (Some o))))
         then ReporterInfo (lang h "binCommands"
                            ++ join ", " (binCommands (build h binFolders (Some o))))
         else ReporterError (lang h "noBinAvailable");
         ReporterInfo (lang h "possibleCommands");
         ReporterList "possibleCommands" (sorted_keys o) o;
         ReporterQuestion (lang h "commandQuestion")])).
Proof.
  intros Hne Hbodies.
  assert (Htruthy : ∀ n, n ∈ sorted_keys o →
            truthy_opt (JsMap.get n (scripts (build h binFolders (Some o)))) = true).
  { intros n [body Hb]%sorted_keys_elem_of. rewrite build_get, Hb. simpl.
    apply truthy_true_iff. by eapply Hbodies. }
  assert (Hobj : toObject
            (fold_left (λ p n, JsMap.set n
                 (or_empty (JsMap.get n (scripts (build h binFolders (Some o))))) p)
               (sorted_keys o) JsMap.empty) = o).
  { apply map_eq. intros k. unfold toObject.
    rewrite toObject_fold_lookup
      by (apply printed_keys_NoDup, NoDup_nil_2).
    rewrite printed_get, build_get. case_bool_decide as Hin.
    - apply sorted_keys_elem_of in Hin as [body Hb]. rewrite Hb.
      by rewrite or_empty_Some.
    - simpl. rewrite lookup_empty. symmetry. apply eq_None_not_Some.
      intros Hs. by apply Hin, sorted_keys_elem_of. }
  unfold run, bind. rewrite pkgCommands_Some.
  unfold emit at 1. rewrite bins_report. unfold emit at 1.
  cbn [YARN_WRAP_OUTPUT trace].
  rewrite printCommands_Returned by done. rewrite Hobj.
  destruct (sorted_keys o) as [|k ks] eqn:Hks; [by apply sorted_keys_nonempty in Hne|].
  cbn [JsSet.size length Nat.ltb Nat.leb]. unfold emit.
  cbn [YARN_WRAP_OUTPUT trace]. rewrite <- !app_assoc. simpl.
  destruct (question_answer h) as [answer|]; [|done].
  by destruct (split " " answer).
Qed.

(** X11. With no action and a manifest whose scripts all have a text, [run]
    reports that no command was specified, reports the executables, lists
    the manifest's script names in ascending order, each paired with its
    text, and asks for a command. When the prompt is rejected it reports
    again that no command was specified and returns: nothing is run and the
    flag is not written. *)
Theorem rejected_prompt_runs_nothing (h : host) (binFolders : list string)
    (o : gmap string string) (w : world) :
  o ≠ ∅ →
  (∀ name body, o !! name = Some body → body ≠ "") →
  question_answer h = None →
  run h binFolders (Some o) [] w =
    (Returned tt,
     World (YARN_WRAP_OUTPUT w)
       (trace w ++
        [ReporterError (lang h "commandNotSpecified");
         if Nat.ltb 0 (JsSet.size (binCommands (build h binFolders (Some o))))
         then ReporterInfo (lang h "binCommands"
                            ++ join ", " (binCommands (build h binFolders (Some o))))
         else ReporterError (lang h "noBinAvailable");
         ReporterInfo (lang h "possibleCommands");
         ReporterList "possibleCommands" (sorted_keys o) o;
         ReporterQuestion (lang h "commandQuestion");
         ReporterError (lang h "commandNotSpecified")])).
Proof.
  intros Hne Hbodies Hq. rewrite run_no_args_listing by done. rewrite Hq.
  unfold emit. cbn [YARN_WRAP_OUTPUT trace]. by rewrite <- app_assoc.
Qed.

Lemma build_manifest_bodies (name body : string) :
  build_manifest !! name = Some body → body ≠ "".
Proof.
  intros Hb Hempty. subst body.
  assert (Hin : (name, "") ∈ map_to_list build_manifest)
    by (by apply elem_of_map_to_list).
  vm_compute in Hin.
  repeat (apply elem_of_cons in Hin as [[=]|Hin]). by apply elem_of_nil in Hin.
Qed.

Lemma build_manifest_nonempty : build_manifest ≠ ∅.
Proof.
  intros Heq. assert (H : build_manifest !! "build" = None) by (by rewrite Heq).
  discriminate.
Qed.

Lemma rejected_prompt_runs_nothing_witness :
  build_manifest ≠ ∅ ∧
  question_answer (demo_host None) = None ∧
  run (demo_host None) ["/a/.bin"] (Some build_manifest) [] w0 =
    (Returned tt,
     World None
       ([] ++
        [ReporterError "commandNotSpecified";
         ReporterInfo "binCommandslint, tsc";
         ReporterInfo "possibleCommands";
         ReporterList "possibleCommands" (sorted_keys build_manifest) build_manifest;
         ReporterQuestion "commandQuestion";
         ReporterError "commandNotSpecified"])).
Proof.
  split_and!; [exact build_manifest_nonempty | reflexivity |].
  exact (rejected_prompt_runs_nothing (demo_host None) ["/a/.bin"] build_manifest w0
           build_manifest_nonempty build_manifest_bodies eq_refl).
Defined.

(** [split] cuts at every single separator and loses nothing. *)
Lemma split_join (c : ascii) (s : string) :
  join (String c "") ((split c s).1 :: (split c s).2) = s.
Proof.
  unfold join. induction s as [|a s IH]; [done|].
  cbn [split]. destruct (split c s) as [x xs]. cbn [fst snd] in IH.
  destruct (Ascii.eqb_spec a c) as [->|Hne]; cbn [fst snd].
  - change (String.concat (String c "") ("" :: x :: xs))
      with (String c (String.concat (String c "") (x :: xs))).
    by rewrite IH.
  - destruct xs as [|y ys].
    + simpl in *. by rewrite IH.
    + change (String.concat (String c "") (String a x :: y :: ys))
        with (String a (String.concat (String c "") (x :: y :: ys))).
      by rewrite IH.
Qed.

(** X12. An answer to the prompt is run as if its pieces between single
    spaces had been given as the arguments of [run]: the first piece is the
    action, the others are the trailing arguments, and joining the pieces
    with spaces gives the answer back. *)
Theorem answered_prompt_runs_the_answer (h : host) (binFolders : list string)
    (o : gmap string string) (w : world) (answer : string) :
  o ≠ ∅ →
  (∀ name body, o !! name = Some body → body ≠ "") →
  question_answer h = Some answer →
  join " " ((split " " answer).1 :: (split " " answer).2) = answer ∧
  run h binFolders (Some o) [] w =
  run h binFolders (Some o) ((split " " answer).1 :: (split " " answer).2)
    (World (YARN_WRAP_OUTPUT w)
       (trace w ++
        [ReporterError (lang h "commandNotSpecified");
         if Nat.ltb 0 (JsSet.size (binCommands (build h binFolders (Some o))))
         then ReporterInfo (lang h "binCommands"
                            ++ join ", " (binCommands (build h binFolders (Some o))))
         else ReporterError (lang h "noBinAvailable");
         ReporterInfo (lang h "possibleCommands");
         ReporterList "possibleCommands" (sorted_keys o) o;
         ReporterQuestion (lang h "commandQuestion")])).
Proof.
  intros Hne Hbodies Hq. split; [apply split_join|].
  rewrite run_no_args_listing by done. by rewrite Hq.
Qed.

Lemma answered_prompt_runs_the_answer_witness :
  build_manifest ≠ ∅ ∧
  question_answer (demo_host (Some "build --fast")) = Some "build --fast" ∧
  run (demo_host (Some "build --fast")) ["/a/.bin"] (Some build_manifest) [] w0 =
    (Returned tt,
     World (Some "false")
       [ReporterError "commandNotSpecified";
        ReporterInfo "binCommandslint, tsc";
        ReporterInfo "possibleCommands";
        ReporterList "possibleCommands" (sorted_keys build_manifest) build_manifest;
        ReporterQuestion "commandQuestion";
        SetYarnWrapOutput "false"; ExecCommand "prebuild" "clean" None;
        ExecCommand "build" "compile --fast" None;
        ExecCommand "postbuild" "notify" None]).
Proof.
  split_and!; [exact build_manifest_nonempty | reflexivity |].
  rewrite (proj2 (answered_prompt_runs_the_answer (demo_host (Some "build --fast"))
                    ["/a/.bin"] build_manifest w0 "build --fast"
                    build_manifest_nonempty build_manifest_bodies eq_refl)).
  reflexivity.
Defined.

(** X13. With no action and a manifest script whose text is empty, [run]
    throws "Action must exists" once it has reported the executables: the
    scripts are not listed and no question is asked. *)
Theorem empty_script_breaks_listing (h : host) (binFolders : list string)
    (o : gmap string string) (name : string) (w : world) :
  o !! name = Some "" →
  run h binFolders (Some o) [] w =
    (Thrown (InvariantViolation "Action must exists"),
     World (YARN_WRAP_OUTPUT w)
       (trace w ++
        [ReporterError (lang h "commandNotSpecified");
         if Nat.ltb 0 (JsSet.size (binCommands (build h binFolders (Some o))))
         then ReporterInfo (lang h "binCommands"
                            ++ join ", " (binCommands (build h binFolders (Some o))))
         else ReporterError (lang h "noBinAvailable")])).
Proof.
  intros Hempty. unfold run, bind. rewrite pkgCommands_Some.
  unfold emit at 1. rewrite bins_report. unfold emit at 1.
  cbn [YARN_WRAP_OUTPUT trace].
  rewrite printCommands_Thrown; [by rewrite <- app_assoc|].
  exists name. split; [apply sorted_keys_elem_of; by eauto|].
  by rewrite build_get, Hempty.
Qed.

Lemma empty_script_breaks_listing_witness :
  ({[ "build" := ""; "test" := "jest" ]} : gmap string string) !! "build" = Some "" ∧
  run (demo_host None) ["/a/.bin"] (Some {[ "build" := ""; "test" := "jest" ]}) [] w0 =
    (Thrown (InvariantViolation "Action must exists"),
     World None
       ([] ++ [ReporterError "commandNotSpecified"; ReporterInfo "binCommandslint, tsc"])).
Proof.
  assert (H : ({[ "build" := ""; "test" := "jest" ]} : gmap string string) !! "build"
              = Some "") by reflexivity.
  split; [exact H|].
  exact (empty_script_breaks_listing (demo_host None) ["/a/.bin"]
           {[ "build" := ""; "test" := "jest" ]} "build" w0 H).
Defined.

(** X14. With no action, no directory that provides a name and no manifest
    script, [run] reports that no command was specified, that no
    executables are available and that no scripts are available, and
    returns. *)
Theorem nothing_available (h : host) (binFolders : list string)
    (pkgScripts : option (gmap string string)) (w : world) :
  (∀ f name, f ∈ binFolders → ¬ provides h f name) →
  pkgScripts = None ∨ pkgScripts = Some ∅ →
  run h binFolders pkgScripts [] w =
    (Returned tt,
     World (YARN_WRAP_OUTPUT w)
       (trace w ++
        [ReporterError (lang h "commandNotSpecified");
         ReporterError (lang h "noBinAvailable");
         ReporterError (lang h "noScriptsAvailable")])).
Proof.
  intros Hnone Hpkg.
  assert (Hbins : binCommands (build h binFolders pkgScripts) = []).
  { destruct (binCommands (build h binFolders pkgScripts)) as [|b bs] eqn:Hb; [done|].
    assert (Hin : b ∈ binCommands (build h binFolders pkgScripts))
      by (rewrite Hb; by left).
    apply binCommands_elem_of in Hin as (f & Hf & Hp). by destruct (Hnone f b). }
  assert (Hpkgs : pkgCommands (build h binFolders pkgScripts) = []).
  { destruct Hpkg as [-> | ->]; [done|]. rewrite pkgCommands_Some.
    unfold sorted_keys. by rewrite map_to_list_empty. }
  unfold run, bind, emit. rewrite Hbins, Hpkgs. simpl. by rewrite <- !app_assoc.
Qed.

Lemma nothing_available_witness :
  (∀ f name, f ∈ ["/c/.bin"] → ¬ provides (demo_host None) f name) ∧
  run (demo_host None) ["/c/.bin"] (Some ∅) [] w0 =
    (Returned tt,
     World None
       ([] ++ [ReporterError "commandNotSpecified"; ReporterError "noBinAvailable";
               ReporterError "noScriptsAvailable"])).
Proof.
  assert (H : ∀ f name, f ∈ ["/c/.bin"] → ¬ provides (demo_host None) f name).
  { intros f name Hf [He _]. apply list_elem_of_singleton in Hf. subst f. discriminate. }
  split; [exact H|].
  exact (nothing_available (demo_host None) ["/c/.bin"] (Some ∅) w0 H (or_intror eq_refl)).
Defined.

(** ** The directories to scan *)

Lemma fold_addRegistryBin (p : project) (folders : list string) (s : JsSet.t) :
  (NoDup s → NoDup (fold_left (addRegistryBin p) folders s)) ∧
  ∀ f, f ∈ fold_left (addRegistryBin p) folders s ↔
       f ∈ s ∨ ∃ folder, folder ∈ folders ∧ f = path_join3 p (cwd p) folder ".bin".
Proof.
  revert s. induction folders as [|x folders IH]; intros s; simpl.
  - split; [done|]. intros f. split; [by left|].
    intros [?|(? & []%elem_of_nil & _)]. done.
  - destruct (IH (addRegistryBin p s x)) as [IHnd IHin]. split.
    + intros Hnd. apply IHnd. by apply JsSet_add_NoDup.
    + intros f. rewrite IHin. unfold addRegistryBin. rewrite JsSet_elem_of_add.
      split.
      * intros [[->|?]|(folder & ? & ?)]; [right | by left | right].
        -- exists x. split; [by left | done].
        -- exists folder. split; [by right | done].
      * intros [?|(folder & Hf & ->)]; [by left; right|].
        apply elem_of_cons in Hf as [->|Hf]; [by left; left|].
        right. by eauto.
Qed.

Lemma addDependencyBin_cases (p : project) (s : JsSet.t) (d : string * string) :
  (addDependencyBin p s d = s ∧
   ∀ location, packageLocation (getPackageInformation p (Package d.1 d.2))
               = Some location → location = "") ∨
  (∃ location,
     packageLocation (getPackageInformation p (Package d.1 d.2)) = Some location ∧
     location ≠ "" ∧ addDependencyBin p s d = JsSet.add (location ++ "/.bin") s).
Proof.
  unfold addDependencyBin.
  destruct (packageLocation _) as [location|]; [|by left].
  destruct (truthy location) eqn:Ht.
  - right. exists location. by apply truthy_true_iff in Ht.
  - left. split; [done|]. intros ? [= <-].
    destruct (String.eqb_spec location ""); [done|].
    unfold truthy in Ht. by destruct (String.eqb_spec location "").
Qed.

Lemma fold_addDependencyBin (p : project) (deps : list (string * string)) (s : JsSet.t) :
  (NoDup s → NoDup (fold_left (addDependencyBin p) deps s)) ∧
  (∀ f, f ∈ fold_left (addDependencyBin p) deps s ↔
        f ∈ s ∨ ∃ name reference location,
                  (name, reference) ∈ deps ∧
                  packageLocation (getPackageInformation p (Package name reference))
                    = Some location ∧
                  location ≠ "" ∧ f = location ++ "/.bin") ∧
  ∃ extra, fold_left (addDependencyBin p) deps s = (s ++ extra)%list ∧
           ∀ x, x ∈ extra → x ∉ s.
Proof.
  revert s. induction deps as [|[name reference] deps IH]; intros s; simpl.
  - split_and!; [done | |].
    + intros f. split; [by left|].
      intros [?|(? & ? & ? & []%elem_of_nil & _)]. done.
    + exists []. rewrite app_nil_r. split; [done|]. by intros x ?%elem_of_nil.
  - destruct (IH (addDependencyBin p s (name, reference))) as (IHnd & IHin & IHex).
    destruct (addDependencyBin_cases p s (name, reference))
      as [[Heq Hnone]|(location & Hloc & Hne & Heq)]; simpl in *.
    + rewrite Heq in *. split_and!; [done | | done].
      intros f. rewrite IHin. split.
      * intros [?|(n & r & l & ? & ? & ? & ?)]; [by left|].
        right. exists n, r, l. split_and!; try done. by right.
      * intros [?|(n & r & l & Hd & Hl & Hl' & ->)]; [by left|].
        apply elem_of_cons in Hd as [[= -> ->]|Hd].
        -- by apply Hnone in Hl.
        -- right. by exists n, r, l.
    + rewrite Heq in *. split_and!.
      * intros Hnd. apply IHnd. by apply JsSet_add_NoDup.
      * intros f. rewrite IHin, JsSet_elem_of_add. split.
        -- intros [[->|?]|(n & r & l & ? & ? & ? & ?)]; [right | by left | right].
           ++ exists name, reference, location. split_and!; try done. by left.
           ++ exists n, r, l. split_and!; try done. by right.
        -- intros [?|(n & r & l & Hd & Hl & Hl' & ->)]; [by left; right|].
           apply elem_of_cons in Hd as [[= -> ->]|Hd].
           ++ left. left. congruence.
           ++ right. by exists n, r, l.
      * destruct IHex as (extra & Hextra & Hfresh).
        destruct (decide (location ++ "/.bin" ∈ s)) as [Hin|Hin].
        -- assert (Hadd : JsSet.add (location ++ "/.bin") s = s)
             by (unfold JsSet.add; by rewrite bool_decide_eq_true_2).
           rewrite Hadd in *. by exists extra.
        -- assert (Hadd : JsSet.add (location ++ "/.bin") s
                          = (s ++ [(location ++ "/.bin")%string])%list)
             by (unfold JsSet.add; by rewrite bool_decide_eq_false_2).
           rewrite Hadd in *. exists ((location ++ "/.bin") :: extra).
           rewrite Hextra, <- app_assoc. split; [done|].
           intros x Hx Hs. apply elem_of_cons in Hx as [->|Hx]; [done|].
           apply (Hfresh x Hx). apply elem_of_app. by left.
Qed.

(** X15. The set of directories to scan holds no directory twice. It holds
    the [.bin] folder of every registry, and, when the PnP file exists, the
    [.bin] folder of every direct dependency of the top level whose location
    is known; a dependency without a location adds nothing, and so does
    every dependency when the PnP file does not exist. *)
Theorem collectBinFolders_members (h : host) (p : project) :
  NoDup (collectBinFolders h p) ∧
  ∀ f, f ∈ collectBinFolders h p ↔
       registry_bin p f ∨
       (fs_exists h (lockfileFolder p ++ "/" ++ PNP_FILENAME p) = true ∧
        dependency_bin p f).
Proof.
  unfold collectBinFolders, registry_bin, dependency_bin.
  destruct (fold_addRegistryBin p (registry_folders p) JsSet.empty) as [Hnd Hin].
  destruct (fs_exists h _).
  - destruct (fold_addDependencyBin p
                (packageDependencies (getPackageInformation p TopLevel))
                (fold_left (addRegistryBin p) (registry_folders p) JsSet.empty))
      as (Hnd' & Hin' & _).
    split; [apply Hnd', Hnd, NoDup_nil_2|].
    intros f. rewrite Hin', Hin. unfold JsSet.empty. rewrite elem_of_nil.
    split; [intros [[[]|?]|?] | intros [?|[_ ?]]]; eauto.
  - split; [apply Hnd, NoDup_nil_2|].
    intros f. rewrite Hin. unfold JsSet.empty. rewrite elem_of_nil.
    split; [intros [[]|?] | intros [?|[? _]]]; eauto. done.
Qed.

Lemma scanFolders_app_provider (h : host) (l1 l2 : list string) (name : string) :
  (∃ g, g ∈ l2 ∧ provides h g name) →
  ∃ g, g ∈ l2 ∧ provides h g name ∧
       JsMap.get name (scanFolders h (l1 ++ l2)).1 = Some (bin_path h g name).
Proof.
  induction l2 as [|x l2 IH] using rev_ind; intros (g & Hg & Hp).
  - by apply elem_of_nil in Hg.
  - unfold scanFolders. rewrite app_assoc, fold_scanFolder_snoc.
    destruct (decide (provides h x name)) as [Hx|Hx].
    + exists x. split_and!; [apply elem_of_app; right; by left | done |].
      by apply scanFolder_get_provided.
    + apply elem_of_app in Hg as [Hg|Hg];
        [|apply list_elem_of_singleton in Hg; by subst].
      destruct IH as (g' & Hg' & Hp' & Hget); [by eauto|].
      exists g'. split_and!; [apply elem_of_app; by left | done |].
      by rewrite scanFolder_get_other.
Qed.

(** X16. The folders of the PnP dependencies are scanned after those of the
    registries. So when a dependency's folder that is not a registry's
    provides a name the manifest does not declare, the table holds the path
    in such a folder, whatever the registries' folders hold under that
    name. *)
Theorem dependency_bin_shadows_registry_bin (h : host) (p : project)
    (pkgScripts : option (gmap string string)) (name g : string) :
  g ∈ collectBinFolders h p →
  ¬ registry_bin p g →
  provides h g name →
  in_scripts name pkgScripts = false →
  ∃ g', g' ∈ collectBinFolders h p ∧ ¬ registry_bin p g' ∧ provides h g' name ∧
        JsMap.get name (scripts (build h (collectBinFolders h p) pkgScripts))
        = Some (quoteForShell h (path_join h g' name)).
Proof.
  intros Hg Hnotreg Hp Hin.
  destruct (fold_addRegistryBin p (registry_folders p) JsSet.empty) as [_ Hreg].
  assert (Hregs : ∀ f, f ∈ fold_left (addRegistryBin p) (registry_folders p) JsSet.empty
                       ↔ registry_bin p f).
  { intros f. rewrite Hreg. unfold JsSet.empty, registry_bin. rewrite elem_of_nil.
    split; [intros [[]|?] | intros ?]; eauto. }
  unfold collectBinFolders in *.
  destruct (fs_exists h _); [|by apply Hregs in Hg].
  destruct (fold_addDependencyBin p
              (packageDependencies (getPackageInformation p TopLevel))
              (fold_left (addRegistryBin p) (registry_folders p) JsSet.empty))
    as (_ & _ & extra & Heq & Hfresh).
  rewrite Heq in *.
  apply elem_of_app in Hg as [Hg|Hg]; [by apply Hregs in Hg|].
  destruct (scanFolders_app_provider h
              (fold_left (addRegistryBin p) (registry_folders p) JsSet.empty)
              extra name) as (g' & Hg' & Hp' & Hget); [by eauto|].
  exists g'. split_and!; [apply elem_of_app; by right | | done |].
  - intros Hr. apply Hregs in Hr. by apply (Hfresh g').
  - rewrite build_get. destruct pkgScripts as [o|]; [|exact Hget].
    simpl in Hin. apply bool_decide_eq_false in Hin.
    destruct (o !! name) eqn:Hb; [|exact Hget]. exfalso. apply Hin. by eauto.
Qed.

Lemma dependency_bin_shadows_registry_bin_witness :
  "/b/.bin" ∈ collectBinFolders pnp_host demo_project ∧
  ¬ registry_bin demo_project "/b/.bin" ∧
  provides pnp_host "/b/.bin" "lint" ∧
  in_scripts "lint" None = false ∧
  ∃ g', g' ∈ collectBinFolders pnp_host demo_project ∧
        ¬ registry_bin demo_project g' ∧ provides pnp_host g' "lint" ∧
        JsMap.get "lint"
          (scripts (build pnp_host (collectBinFolders pnp_host demo_project) None))
        = Some (quoteForShell pnp_host (path_join pnp_host g' "lint")).
Proof.
  assert (H1 : "/b/.bin" ∈ collectBinFolders pnp_host demo_project)
    by (vm_compute; right; left).
  assert (H2 : ¬ registry_bin demo_project "/b/.bin").
  { intros (folder & Hf & Heq). apply list_elem_of_singleton in Hf. subst folder.
    vm_compute in Heq. discriminate. }
  assert (H3 : provides pnp_host "/b/.bin" "lint").
  { split; [reflexivity|]. vm_compute. by left. }
  assert (H4 : in_scripts "lint" None = false) by reflexivity.
  split_and!; [exact H1 | exact H2 | exact H3 | exact H4 |].
  exact (dependency_bin_shadows_registry_bin pnp_host demo_project None "lint"
           "/b/.bin" H1 H2 H3 H4).
Defined.

(** ** The body of the suggestion loop *)

Lemma suggest_snoc (names : list string) (c action : string) :
  suggest (names ++ [c]) action =
  if Nat.ltb (leven c action) 2 then Some c else suggest names action.
Proof. unfold suggest. by rewrite fold_left_app. Qed.

(** X17. The body of the loop of lines 126-131, run over a sequence of
    names, leaves the last name whose distance to the action is below 2,
    and leaves nothing exactly when no name of the sequence is that near. *)
Theorem suggestion_loop_keeps_last_near_name (names : list string) (action : string) :
  (suggest names action = None ↔
   ∀ c, c ∈ names → (2 ≤ leven c action)%nat) ∧
  (∀ before c after,
     names = (before ++ c :: after)%list →
     (leven c action < 2)%nat →
     (∀ c', c' ∈ after → (2 ≤ leven c' action)%nat) →
     suggest names action = Some c).
Proof.
  split.
  - induction names as [|x names IH] using rev_ind.
    + split; [by intros _ c ?%elem_of_nil | done].
    + rewrite suggest_snoc. destruct (Nat.ltb_spec (leven x action) 2) as [Hx|Hx].
      * split; [done|]. intros Hall.
        assert (2 ≤ leven x action)%nat; [|lia].
        apply Hall, elem_of_app. right. by left.
      * rewrite IH. split.
        -- intros Hall c [Hc|Hc]%elem_of_app; [by apply Hall|].
           apply list_elem_of_singleton in Hc. by subst.
        -- intros Hall c Hc. apply Hall, elem_of_app. by left.
  - intros before c after -> Hc Hafter.
    induction after as [|x after IH] using rev_ind.
    + rewrite suggest_snoc. by destruct (Nat.ltb_spec (leven c action) 2); [|lia].
    + replace (before ++ c :: after ++ [x])%list
        with ((before ++ c :: after) ++ [x])%list by (by rewrite <- app_assoc).
      rewrite suggest_snoc.
      destruct (Nat.ltb_spec (leven x action) 2) as [Hx|Hx].
      * assert (2 ≤ leven x action)%nat; [|lia].
        apply Hafter, elem_of_app. right. by left.
      * apply IH. intros c' Hc'. apply Hafter, elem_of_app. by left.
Qed.

Lemma suggestion_loop_keeps_last_near_name_witness :
  ["build"; "bild"; "test"] = (["build"] ++ "bild" :: ["test"])%list ∧
  (leven "bild" "buld" < 2)%nat ∧
  (∀ c', c' ∈ ["test"] → (2 ≤ leven c' "buld")%nat) ∧
  suggest ["build"; "bild"; "test"] "buld" = Some "bild".
Proof.
  assert (H1 : ["build"; "bild"; "test"] = (["build"] ++ "bild" :: ["test"])%list)
    by reflexivity.
  assert (H2 : (leven "bild" "buld" < 2)%nat) by (vm_compute; lia).
  assert (H3 : ∀ c', c' ∈ ["test"] → (2 ≤ leven c' "buld")%nat).
  { intros c' Hc'. apply list_elem_of_singleton in Hc'. subst c'. vm_compute. lia. }
  split_and!; [exact H1 | exact H2 | exact H3 |].
  exact (proj2 (suggestion_loop_keeps_last_near_name ["build"; "bild"; "test"] "buld")
           ["build"] "bild" ["test"] H1 H2 H3).
Defined.
